(** * Flotation predictor (main.py): a shallow embedding and its properties

    The program is one Streamlit script.  Every render executes it from top
    to bottom: it loads a joblib model through a process-wide resource
    cache, draws three sliders in the sidebar, and, when the primary button
    was pressed, asks the model for a prediction and shows it with two
    decimals.

    The embedding keeps the shape of the script.  Python exceptions, the
    resource cache and the drawn elements are threaded by a small monad
    [M]; Python floats are IEEE binary64 values ([spec_float]); the objects
    a model may hand back are a fragment of Python values ([pyval]). *)

Set Warnings "-register-all".
From Stdlib Require Import ZArith List String Ascii Lia.
From Stdlib Require Import Numbers.DecimalString Numbers.DecimalN.
From Stdlib Require Import Floats.SpecFloat.
From stdpp Require Import gmap strings.

Local Open Scope Z_scope.
Local Open Scope string_scope.

(* ===================================================================== *)
(** ** Python exceptions *)
(* ===================================================================== *)

(** The classes the script can meet.  [KeyboardInterrupt] and [SystemExit]
    derive from [BaseException] only; every other class listed derives
    from [Exception].  [FileNotFoundError] is the one class the loader's
    handler names. *)
Inductive exn_class : Type :=
  | KeyboardInterrupt
  | SystemExit
  | FileNotFoundError
  | PermissionError
  | IsADirectoryError
  | EOFError
  | UnpicklingError
  | AttributeError
  | IndexError
  | TypeError
  | ValueError
  | OverflowError
  | OtherException (qualname : string).

(** [isinstance(e, Exception)] *)
Definition is_Exception (c : exn_class) : bool :=
  match c with
  | KeyboardInterrupt | SystemExit => false
  | _ => true
  end.

(** [isinstance(e, FileNotFoundError)] *)
Definition is_FileNotFoundError (c : exn_class) : bool :=
  match c with
  | FileNotFoundError => true
  | _ => false
  end.

(** An exception instance: its class and [str(e)]. *)
Record exn : Type := mkExn { exn_class_of : exn_class; exn_text : string }.

(** The outcome of evaluating a Python expression. *)
Inductive result (A : Type) : Type :=
  | Ok (a : A)
  | Raise (e : exn).
Arguments Ok {A} a.
Arguments Raise {A} e.

(* ===================================================================== *)
(** ** Python values *)
(* ===================================================================== *)

(** The values that reach the script: slider positions ([PInt]) and
    whatever [model.predict] returns.  [PArray] is a one-dimensional numpy
    array, [PList] a Python list.  A string taken out of a numpy array is a
    [numpy.str_] ([PNpStr]), which formats like a [str] but is named
    differently in error messages. *)
Inductive pyval : Type :=
  | PNone
  | PInt (z : Z)
  | PFloat (f : spec_float)
  | PStr (s : string)
  | PNpStr (s : string)
  | PList (l : list pyval)
  | PArray (l : list pyval).

(** binary64 *)
Definition prec : Z := 53.
Definition emax : Z := 1024.

(** [v[0]] *)
Definition getitem0 (v : pyval) : result pyval :=
  match v with
  | PList (x :: _) => Ok x
  | PList [] => Raise (mkExn IndexError "list index out of range")
  | PArray (PStr s :: _) => Ok (PNpStr s)
  | PArray (x :: _) => Ok x
  | PArray [] =>
      Raise (mkExn IndexError "index 0 is out of bounds for axis 0 with size 0")
  | PStr (String c _) | PNpStr (String c _) =>
      Ok (PStr (String c EmptyString))
  | PStr EmptyString | PNpStr EmptyString =>
      Raise (mkExn IndexError "string index out of range")
  | PNone => Raise (mkExn TypeError "'NoneType' object is not subscriptable")
  | PInt _ => Raise (mkExn TypeError "'int' object is not subscriptable")
  | PFloat _ => Raise (mkExn TypeError "'float' object is not subscriptable")
  end.

(** *** Fixed-point formatting, [format(x, '.2f')] *)

(** Decimal numeral of a non-negative integer. *)
Definition decimal (n : Z) : string :=
  NilZero.string_of_uint (N.to_uint (Z.to_N n)).

(** The character of one decimal digit. *)
Definition digit_char (d : Z) : ascii :=
  ascii_of_N (48 + Z.to_N d).

Definition two_digits (n : Z) : string :=
  String (digit_char (n / 10)) (String (digit_char (n mod 10)) EmptyString).

(** Round [num / den] to the nearest integer, ties to even. *)
Definition round_half_even (num den : Z) : Z :=
  let q := num / den in
  let r := num mod den in
  match 2 * r ?= den with
  | Lt => q
  | Gt => q + 1
  | Eq => if Z.even q then q else q + 1
  end.

(** The magnitude [m * 2^e] in hundredths, correctly rounded. *)
Definition hundredths (m : positive) (e : Z) : Z :=
  match e with
  | Zneg p => round_half_even (100 * Zpos m) (2 ^ Zpos p)
  | _ => 100 * Zpos m * 2 ^ e
  end.

Definition sign_prefix (s : bool) : string := if s then "-" else "".

(** [sign digits . d d] for a magnitude given in hundredths. *)
Definition fixed2 (s : bool) (h : Z) : string :=
  sign_prefix s ++ decimal (h / 100) ++ "." ++ two_digits (h mod 100).

(** [float.__format__(f, '.2f')]: the shortest is never asked for here,
    the conversion is the correctly rounded one. *)
Definition float_format_2f (f : spec_float) : string :=
  match f with
  | S754_zero s => fixed2 s 0
  | S754_infinity s => sign_prefix s ++ "inf"
  | S754_nan => "nan"
  | S754_finite s m e => fixed2 s (hundredths m e)
  end.

(** [float(z)] for an int: nearest binary64, ties to even. *)
Definition int_to_float (z : Z) : spec_float :=
  binary_normalize prec emax z 0 false.

(** [format(v, '.2f')] *)
Definition format_2f (v : pyval) : result string :=
  match v with
  | PFloat f => Ok (float_format_2f f)
  | PInt z =>
      match int_to_float z with
      | S754_infinity _ =>
          Raise (mkExn OverflowError "int too large to convert to float")
      | f => Ok (float_format_2f f)
      end
  | PStr _ =>
      Raise (mkExn ValueError
               "Unknown format code 'f' for object of type 'str'")
  | PNpStr _ =>
      Raise (mkExn ValueError
               "Unknown format code 'f' for object of type 'numpy.str_'")
  | PNone =>
      Raise (mkExn TypeError
               "unsupported format string passed to NoneType.__format__")
  | PList _ =>
      Raise (mkExn TypeError
               "unsupported format string passed to list.__format__")
  | PArray _ =>
      Raise (mkExn TypeError
               "unsupported format string passed to numpy.ndarray.__format__")
  end.

(** The binary64 value nearest to the decimal literal [12.3456]:
    [0x1.8b0f27bb2fec5p+3]. *)
Definition float_12_3456 : spec_float :=
  S754_finite false 6949954944958149 (-49).


(* ===================================================================== *)
(** ** The world of one server process *)
(* ===================================================================== *)

(** A pandas frame: the columns in insertion order, each with its cells. *)
Definition DataFrame : Type := list (string * list pyval).

(** What a deserialised object does when [.predict(df)] is called on it. *)
Definition predictor : Type := DataFrame -> result pyval.

(** A live model object: [joblib.load] builds a new object at every call,
    [oid] is its identity ([id(model)]). *)
Record model : Type := mkModel { oid : nat; predict : predictor }.

(** The files the process can see: what [joblib.load(path)] does at each
    path, either deserialising a predictor or raising. *)
Definition filesystem : Type := string -> result predictor.

(** Where an element is drawn. *)
Inductive container : Type :=
  | MainArea
  | Sidebar
  | Expander (label : string).

Record slider_spec : Type := mkSlider {
  label : string;
  min_value : Z;
  max_value : Z;
  value : Z;
  step : Z
}.

(** The Streamlit elements the script draws. *)
Inductive element : Type :=
  | PageConfig (page_title page_icon layout : string)
  | Header (body : string)
  | Markdown (body : string)
  | Caption (body : string)
  | Title (body : string)
  | Subheader (body : string)
  | Slider (spec : slider_spec) (current : Z)
  | Button (label : string) (type : string)
  | Success (body : string)
  | Info (body : string)
  | Error (body : string)
  | Warning (body : string)
  | Divider.

(** What one render does, in order: elements drawn, files deserialised,
    predictions asked for. *)
Inductive event : Type :=
  | Draw (c : container) (e : element)
  | JoblibLoad (path : string)
  | ModelPredict (m : nat) (df : DataFrame).

(** An entry of the resource cache: the value the function returned and
    the elements it drew, which are drawn again on a hit. *)
Abbreviation cache_entry := (option model * list event)%type.

(** Process-wide state, shared by all renders. *)
Record world : Type := mkWorld {
  cache : gmap string cache_entry;
  next_oid : nat
}.

Definition fresh_world : world := mkWorld ∅ 0%nat.

(* ===================================================================== *)
(** ** The script monad *)
(* ===================================================================== *)

Record outcome (A : Type) : Type := mkOutcome {
  final : world;
  trace : list event;
  returned : result A
}.
Arguments mkOutcome {A} final trace returned.
Arguments final {A} o.
Arguments trace {A} o.
Arguments returned {A} o.

Definition M (A : Type) : Type := world -> outcome A.

Definition ret {A} (a : A) : M A := fun w => mkOutcome w [] (Ok a).

Definition bind {A B} (f : A -> M B) (m : M A) : M B :=
  fun w =>
    let o := m w in
    match returned o with
    | Ok a =>
        let o' := f a (final o) in
        mkOutcome (final o') (trace o ++ trace o') (returned o')
    | Raise e => mkOutcome (final o) (trace o) (Raise e)
    end.

#[global] Instance M_ret : MRet M := @ret.
#[global] Instance M_bind : MBind M := @bind.

Definition emit (ev : event) : M unit := fun w => mkOutcome w [ev] (Ok tt).

Definition lift {A} (r : result A) : M A := fun w => mkOutcome w [] r.

(** [try: body / except C as e: handler e], where [catches] decides
    [isinstance(e, C)]. *)
Definition try_except {A} (body : M A) (catches : exn_class -> bool)
    (handler : exn -> M A) : M A :=
  fun w =>
    let o := body w in
    match returned o with
    | Ok a => o
    | Raise e =>
        if catches (exn_class_of e) then
          let o' := handler e (final o) in
          mkOutcome (final o') (trace o ++ trace o') (returned o')
        else o
    end.

(** [with c: body]: what [body] draws goes to [c]. *)
Definition redirect (c : container) (ev : event) : event :=
  match ev with
  | Draw _ e => Draw c e
  | _ => ev
  end.

Definition within {A} (c : container) (body : M A) : M A :=
  fun w =>
    let o := body w in
    mkOutcome (final o) (map (redirect c) (trace o)) (returned o).

(* ===================================================================== *)
(** ** Library calls *)
(* ===================================================================== *)

(** [joblib.load(path)]: reads the file; on success a new object. *)
Definition joblib_load (fs : filesystem) (path : string) : M model :=
  fun w =>
    match fs path with
    | Ok p =>
        mkOutcome (mkWorld (cache w) (S (next_oid w)))
                  [JoblibLoad path] (Ok (mkModel (next_oid w) p))
    | Raise e => mkOutcome w [JoblibLoad path] (Raise e)
    end.

(** [model.predict(df)] *)
Definition model_predict (m : model) (df : DataFrame) : M pyval :=
  emit (ModelPredict (oid m) df);; lift (predict m df).

Definition is_draw (ev : event) : bool :=
  match ev with
  | Draw _ _ => true
  | _ => false
  end.

(** [@st.cache_resource]: a hit returns the stored value and draws the
    stored elements again, the function is not run; a miss runs it and
    stores what it returned. A call that raises stores nothing. *)
Definition cache_resource (key : string) (f : M (option model))
    : M (option model) :=
  fun w =>
    match cache w !! key with
    | Some (v, drawn) => mkOutcome w drawn (Ok v)
    | None =>
        let o := f w in
        match returned o with
        | Ok v =>
            mkOutcome
              (mkWorld (<[key := (v, filter is_draw (trace o))]>
                          (cache (final o)))
                       (next_oid (final o)))
              (trace o) (Ok v)
        | Raise e => o
        end
    end.

Definition st_draw (e : element) : M unit := emit (Draw MainArea e).

(** Widget state of one browser session, keyed by the widget's label. *)
Abbreviation session := (gmap string Z).

(** Whether [v] lies between the bounds the slider was declared with. *)
Definition admits (spec : slider_spec) (v : Z) : bool :=
  ((min_value spec <=? v) && (v <=? max_value spec))%Z.

(** The value a slider has for the widget state of the session: the
    position the browser sent when it lies between the declared bounds, the
    declared [value] when it does not, and until the user has moved the
    slider. With ints and step 1, as in this script, every integer between
    the bounds is a position of the slider. *)
Definition current (spec : slider_spec) (ss : session) : Z :=
  match ss !! label spec with
  | Some v => if admits spec v then v else value spec
  | None => value spec
  end.

(** [st.slider]: draws the control and returns its current value. *)
Definition st_slider (spec : slider_spec) (ss : session) : M Z :=
  let v := current spec ss in
  st_draw (Slider spec v);; mret v.

(** [st.button]: draws the button; true in the render its press caused. *)
Definition st_button (label type : string) (pressed : bool) : M bool :=
  st_draw (Button label type);; mret pressed.

(** The browser sends the position the user asked for. *)
Definition move_slider (spec : slider_spec) (raw : Z) (ss : session)
    : session :=
  <[label spec := raw]> ss.

(* ===================================================================== *)
(** ** main.py *)
(* ===================================================================== *)

Definition sidebar_intro : string :=
  "
    Ajusta los deslizadores para que coincidan con los parámetros operativos del proceso de flotación.
    ".

Definition welcome_text : string :=
  "
¡Bienvenido! Esta aplicación utiliza un modelo de machine learning de Boosted Tree para predecir el porcentaje de Silica Concentrada en un proceso de Flotación
**Esta herramienta puede ayudar a los ingenieros de procesos y operadores a:**
- **Optimizar** las condiciones de operación para obtener el máximo rendimiento.
- **Predecir** el impacto de los cambios en las variables más significativas: 


Porcentaje de Hierro Concentrado (%),


Flujo de Aire en la Columna de Flotación 1,


Flujo de Amina.

En el caso de la primera variable, al presentar un comportamiento inverso con el porcentaje de Sílica, resulta imperativo contemplarla en esta herramienta predictiva.


Para el caso del flujo de aire, este se asocia a procesos de transporte de masa que fomentan un aumento o disminución de la concentración de sílica.


Finalmente, el flujo de amina presenta una adsorción en la superficie de la sílice, generando un comportamiento hidrofóbico que influye en el transporte de materia.
- **Solucionar** problemas potenciales simulando diferentes escenarios.
".

Definition about_text : string :=
  "
    **¿Cómo funciona?**

    1.  **Datos de Entrada:** Proporcionas los parámetros operativos clave usando los deslizadores en la barra lateral.
    2.  **Predicción:** El modelo de machine learning pre-entrenado recibe estas entradas y las analiza basándose en los patrones que aprendió de datos históricos.
    3.  **Resultado:** La aplicación muestra el porcentaje de sílica concentrada que se obtiene a partir de los valores de entrada..

    **Detalles del Modelo:**

    * **Tipo de Modelo:** `Regression Model` (XGBoost Optimizado)
    * **Propósito:** Predecir el valor continuo del porcentaje de sílica concentrada en el proceso de flotación.
    * **Características Usadas:** Flujo de Amina, Flujo de Aire en la Columna 1 y Porcentaje de Hierro Concentrado.
    ".

(** [load_model] before the decorator is applied. *)
Definition load_model_body (fs : filesystem) (model_path : string)
    : M (option model) :=
  try_except
    (model ← joblib_load fs model_path;
     mret (Some model))
    is_FileNotFoundError
    (fun _ =>
       st_draw (Error ("Error: No se encontró el archivo del modelo en "
                       +:+ model_path
                       +:+ ". Asegúrate de que el archivo del modelo esté en el directorio correcto."));;
       mret None).

Definition load_model (fs : filesystem) (model_path : string)
    : M (option model) :=
  cache_resource model_path (load_model_body fs model_path).

Definition MODEL_PATH : string := "modeloproyecto.joblib".

Definition AmineFlow_slider : slider_spec :=
  mkSlider "Flujo de Amina (kg/min)" 241 740 300 1.

Definition AirFlow_slider : slider_spec :=
  mkSlider "Flujo de Aire Columna 1(kg/min)" 175 372 180 1.

Definition Iron_slider : slider_spec :=
  mkSlider "Hierro Concentrado (%)" 62 69 63 1.

(** The [with st.sidebar:] block; returns the three slider values. *)
Definition input_form (ss : session) : M (Z * Z * Z) :=
  within Sidebar
    (st_draw (Header "⚙️ Parámetros de Entrada");;
     st_draw (Markdown sidebar_intro);;
     AmineFlow ← st_slider AmineFlow_slider ss;
     st_draw (Caption "Representa el flujo de amina en el proceso.");;
     AirFlow ← st_slider AirFlow_slider ss;
     st_draw (Caption "Importante para el proceso de transferencia de masa (burbujeo)");;
     Iron ← st_slider Iron_slider ss;
     st_draw (Caption "Condiciona parametros de selectividad");;
     mret (AmineFlow, AirFlow, Iron)).

(** The frame handed to the model. *)
Definition df_input (AmineFlow AirFlow Iron : Z) : DataFrame :=
  [ ("FlujoAmina", [PInt AmineFlow]);
    ("FlujoAireColumna1", [PInt AirFlow]);
    ("Hierro Concentrado", [PInt Iron]) ].

(** The text shown inside the code span of the success box. *)
Definition result_string (formatted : string) : string :=
  formatted +:+ "%".

Definition success_message (formatted : string) : string :=
  "**Rendimiento Predicho:** `" +:+ result_string formatted +:+ "`".

Definition error_message (e : exn) : string :=
  "Ocurrió un error durante la predicción: " +:+ exn_text e.

Definition warning_text : string :=
  "El modelo no pudo ser cargado. Por favor, verifica la ruta del archivo del modelo.".

(** The body of [if st.button(...)]. *)
Definition predict_and_show (m : model) (AmineFlow AirFlow Iron : Z)
    : M unit :=
  let df := df_input AmineFlow AirFlow Iron in
  try_except
    (prediction_value ← model_predict m df;
     st_draw (Subheader "📈 Resultado de la Predicción");;
     first ← lift (getitem0 prediction_value);
     formatted ← lift (format_2f first);
     st_draw (Success (success_message formatted));;
     st_draw (Info "Este valor representa el porcentaje estimado del producto deseado que se recuperará."))
    is_Exception
    (fun e => st_draw (Error (error_message e))).

(** The prediction logic, from [if model is not None:] on. *)
Definition prediction_logic (mdl : option model) (pressed : bool)
    (AmineFlow AirFlow Iron : Z) : M unit :=
  match mdl with
  | Some m =>
      b ← st_button "🚀 Predecir Rendimiento" "primary" pressed;
      if b : bool then predict_and_show m AmineFlow AirFlow Iron
      else mret tt
  | None => st_draw (Warning warning_text)
  end.

(** One render: the whole script, top to bottom. [ss] is the session's
    widget state and [pressed] tells whether this render was caused by a
    press of the button. *)
Definition script (fs : filesystem) (ss : session) (pressed : bool)
    : M unit :=
  st_draw (PageConfig "Predictor de Rendimiento de Destilación" "🧪" "wide");;
  mdl ← load_model fs MODEL_PATH;
  '(AmineFlow, AirFlow, Iron) ← input_form ss;
  st_draw (Title "🧪 Predictor de Porcentaje de Sílica Concentrada en Proceso de Flotación");;
  st_draw (Markdown welcome_text);;
  prediction_logic mdl pressed AmineFlow AirFlow Iron;;
  st_draw Divider;;
  within (Expander "ℹ️ Sobre la Aplicación") (st_draw (Markdown about_text)).

(* ===================================================================== *)
(** ** The browser side: user actions and renders *)
(* ===================================================================== *)

Inductive control : Type := AmineFlow_control | AirFlow_control | Iron_control.

Definition spec_of (c : control) : slider_spec :=
  match c with
  | AmineFlow_control => AmineFlow_slider
  | AirFlow_control => AirFlow_slider
  | Iron_control => Iron_slider
  end.

(** What the user can do on the page. Every action causes one render. *)
Inductive user_event : Type :=
  | Move (c : control) (raw : Z)
  | Press.

Definition react (ev : user_event) (ss : session) : session :=
  match ev with
  | Move c raw => move_slider (spec_of c) raw ss
  | Press => ss
  end.

Definition pressed_by (ev : user_event) : bool :=
  match ev with
  | Press => true
  | Move _ _ => false
  end.

(** The render an action causes. *)
Definition render (fs : filesystem) (ev : user_event) (ss : session)
    : M unit :=
  script fs (react ev ss) (pressed_by ev).

(** The widget state after a series of actions in a new session. *)
Definition play (evs : list user_event) : session :=
  fold_left (fun ss ev => react ev ss) evs ∅.

(** The slider's current position in a session. *)
Definition position (c : control) (ss : session) : Z :=
  current (spec_of c) ss.

(** The session in which the user has put the sliders at [a], [b], [c]. *)
Definition session_at (a b c : Z) : session :=
  play [Move AmineFlow_control a; Move AirFlow_control b;
        Move Iron_control c].

(** The states the server process can be in: it starts with an empty cache
    and runs the script once per render, for any session, against whatever
    the disk holds at that time. An escaping exception ends the render, not
    the process. *)
Inductive reachable : world -> Prop :=
  | reachable_fresh : reachable fresh_world
  | reachable_render fs ss pressed w :
      reachable w -> reachable (final (script fs ss pressed w)).

(** Successive renders in one process. *)
Fixpoint renders (steps : list (filesystem * session * bool)) (w : world)
    : list (outcome unit) :=
  match steps with
  | [] => []
  | (fs, ss, pressed) :: rest =>
      let o := script fs ss pressed w in
      o :: renders rest (final o)
  end.

(* ===================================================================== *)
(** ** Observations on a trace *)
(* ===================================================================== *)

Definition is_load (ev : event) : bool :=
  match ev with
  | JoblibLoad _ => true
  | _ => false
  end.

Definition is_predict (ev : event) : bool :=
  match ev with
  | ModelPredict _ _ => true
  | _ => false
  end.

Definition is_button (ev : event) : bool :=
  match ev with
  | Draw _ (Button _ _) => true
  | _ => false
  end.

(** The elements only a prediction draws. *)
Definition is_result (ev : event) : bool :=
  match ev with
  | Draw _ (Subheader _) | Draw _ (Success _) | Draw _ (Info _) => true
  | _ => false
  end.

Definition is_prediction_error (ev : event) : bool :=
  match ev with
  | Draw _ (Error body) =>
      String.prefix "Ocurrió un error durante la predicción: " body
  | _ => false
  end.

(** The sliders a trace shows, with their positions. *)
Definition sliders_of (tr : list event) : list (slider_spec * Z) :=
  omap (fun ev => match ev with
                  | Draw Sidebar (Slider s v) => Some (s, v)
                  | _ => None
                  end) tr.

(** The frames handed to [predict]. *)
Definition frames_of (tr : list event) : list DataFrame :=
  omap (fun ev => match ev with
                  | ModelPredict _ df => Some df
                  | _ => None
                  end) tr.

Definition shows_result (tr : list event) (formatted : string) : Prop :=
  In (Draw MainArea (Success (success_message formatted))) tr.

Definition shows_error (tr : list event) (e : exn) : Prop :=
  In (Draw MainArea (Error (error_message e))) tr.

Definition shows_warning (tr : list event) : Prop :=
  In (Draw MainArea (Warning warning_text)) tr.

(** No event of the trace satisfies [p]. *)
Definition none (p : event -> bool) (tr : list event) : Prop :=
  forallb (fun ev => negb (p ev)) tr = true.

(** The text of the loader's own error box. *)
Definition not_found_message (model_path : string) : string :=
  "Error: No se encontró el archivo del modelo en " +:+ model_path
  +:+ ". Asegúrate de que el archivo del modelo esté en el directorio correcto.".

(** What [model.predict(df)[0]] formatted with [.2f] evaluates to. *)
Definition formatted_prediction (m : model) (df : DataFrame) : result string :=
  match predict m df with
  | Ok v =>
      match getitem0 v with
      | Ok x => format_2f x
      | Raise e => Raise e
      end
  | Raise e => Raise e
  end.

Definition in_range (spec : slider_spec) (v : Z) : Prop :=
  min_value spec <= v <= max_value spec.

(* ===================================================================== *)
(** ** Pieces of a render *)
(* ===================================================================== *)

(** What the sidebar block draws; it neither reads nor writes the world. *)
Definition form_events (ss : session) : list event :=
  trace (input_form ss fresh_world).

Definition page_config_event : event :=
  Draw MainArea
    (PageConfig "Predictor de Rendimiento de Destilación" "🧪" "wide").

Definition intro_events : list event :=
  [ Draw MainArea (Title "🧪 Predictor de Porcentaje de Sílica Concentrada en Proceso de Flotación");
    Draw MainArea (Markdown welcome_text) ].

Definition footer_events : list event :=
  [ Draw MainArea Divider;
    Draw (Expander "ℹ️ Sobre la Aplicación") (Markdown about_text) ].

Definition button_event : event :=
  Draw MainArea (Button "🚀 Predecir Rendimiento" "primary").

(** *** What the cache can hold *)

(** Every entry was stored by the loader: a model it deserialised, with
    nothing to draw again, or [None] with the loader's error box. *)
Definition cache_ok (w : world) : Prop :=
  forall key v drawn,
    cache w !! key = Some (v, drawn) ->
    (v = None /\ drawn = [Draw MainArea (Error (not_found_message key))])
    \/ (exists m, v = Some m /\ drawn = [] /\ (oid m < next_oid w)%nat).


(** The paths a trace reads. *)
Definition loads_of (tr : list event) : list string :=
  omap (fun ev => match ev with
                  | JoblibLoad p => Some p
                  | _ => None
                  end) tr.

(** The cache holds [None] for the model: the loader failed earlier in
    this process. *)
Definition load_failed (w : world) : Prop :=
  exists drawn, cache w !! MODEL_PATH = Some (None, drawn).

(** A render that shows the warning and offers no way to predict. *)
Definition blocked (o : outcome unit) : Prop :=
  returned o = Ok tt
  /\ shows_warning (trace o)
  /\ none is_button (trace o)
  /\ none is_predict (trace o)
  /\ none is_result (trace o).

#[global] Instance control_eq_dec : EqDecision control.
Proof. solve_decision. Defined.

Definition is_int (v : pyval) : bool :=
  match v with
  | PInt _ => true
  | _ => false
  end.

(** Every cell of the frame is a Python int. *)
Definition int_cells (df : DataFrame) : bool :=
  forallb (fun col => forallb is_int (snd col)) df.

(** The column labels of a frame, in order. *)
Definition columns (df : DataFrame) : list string := map fst df.

(** Every slider of the session is inside its range. *)
Definition session_ok (ss : gmap string Z) : Prop :=
  forall c, in_range (spec_of c) (position c ss).

Definition is_success (ev : event) : bool :=
  match ev with
  | Draw _ (Success _) => true
  | _ => false
  end.

(** The three slider values of a session, as the form returns them. *)
Definition inputs_of (ss : gmap string Z) : DataFrame :=
  df_input (position AmineFlow_control ss) (position AirFlow_control ss)
           (position Iron_control ss).

(** A render that ended normally with the formatted result [s] shown. *)
Definition rendered_result (o : outcome unit) (s : string) : Prop :=
  returned o = Ok tt
  /\ shows_result (trace o) s
  /\ none is_prediction_error (trace o).

(** A render that ended normally with the caught exception [e] shown. *)
Definition rendered_error (o : outcome unit) (e : exn) : Prop :=
  returned o = Ok tt
  /\ shows_error (trace o) e
  /\ none is_success (trace o).

(** A render ended by the exception [e], with neither result nor error
    message shown. *)
Definition crashed (o : outcome unit) (e : exn) : Prop :=
  returned o = Raise e
  /\ none is_success (trace o)
  /\ none is_prediction_error (trace o).

(** *** The shape of a formatted number *)

Definition is_digit (c : ascii) : bool :=
  (48 <=? N_of_ascii c)%N && (N_of_ascii c <=? 57)%N.

Fixpoint all_digits (s : string) : bool :=
  match s with
  | EmptyString => true
  | String c rest => is_digit c && all_digits rest
  end.

(** An optional minus sign, at least one digit, a point, two digits. *)
Definition two_decimals (s : string) : Prop :=
  exists sign whole d1 d2,
    s = sign +:+ whole +:+ "." +:+ String d1 (String d2 EmptyString)
    /\ (sign = "" \/ sign = "-")
    /\ whole <> ""
    /\ all_digits whole = true
    /\ is_digit d1 = true
    /\ is_digit d2 = true.

(** [h] hundredths is a nearest neighbour of the magnitude [m * 2^e]:
    [|h - 100 * m * 2^e| <= 1/2], with the power of two cleared. *)
Definition nearest_hundredth (m : positive) (e h : Z) : Prop :=
  2 * Z.abs (h * 2 ^ Z.max 0 (- e) - 100 * Zpos m * 2 ^ Z.max 0 e)
  <= 2 ^ Z.max 0 (- e).

(** On an exact tie the even neighbour is taken. *)
Definition tie_goes_to_even (m : positive) (e h : Z) : Prop :=
  2 * Z.abs (h * 2 ^ Z.max 0 (- e) - 100 * Zpos m * 2 ^ Z.max 0 e)
  = 2 ^ Z.max 0 (- e) ->
  Z.even h = true.

(** *** Reading a formatted number back *)

Definition digit_value (c : ascii) : option Z :=
  if is_digit c then Some (Z.of_N (N_of_ascii c) - 48) else None.

(** The number a non-empty string of decimal digits denotes. *)
Definition read_digits (s : string) : option Z :=
  match s with
  | EmptyString => None
  | _ =>
      match NilEmpty.uint_of_string s with
      | Some d => Some (Z.of_N (N.of_uint d))
      | None => None
      end
  end.

(** The text before the first point and the text after it. *)
Fixpoint split_point (s : string) : option (string * string) :=
  match s with
  | EmptyString => None
  | String c rest =>
      if Ascii.eqb c "." then Some (EmptyString, rest)
      else match split_point rest with
           | Some (before, after) => Some (String c before, after)
           | None => None
           end
  end.

(** The sign and the magnitude, in hundredths, that a text of the form
    [-ddd.dd] denotes; [None] for any other text. *)
Definition read_fixed2 (s : string) : option (bool * Z) :=
  let signed :=
    match s with
    | String c rest => if Ascii.eqb c "-" then (true, rest) else (false, s)
    | EmptyString => (false, s)
    end in
  match split_point (snd signed) with
  | Some (whole, String d1 (String d2 EmptyString)) =>
      match read_digits whole, digit_value d1, digit_value d2 with
      | Some n, Some a, Some b => Some (fst signed, 100 * n + 10 * a + b)
      | _, _, _ => None
      end
  | _ => None
  end.

(** *** A serialized model and the names it was fitted on *)

(** What a model file holds, as far as a prediction is concerned: the
    feature names the model was fitted on and what its [predict] does. The
    script uses [predict] only. *)
Record artifact : Type := mkArtifact {
  feature_names : list string;
  behaviour : predictor
}.

(** *** Further observations on a trace *)

(** The calls of [predict]: the object asked and the frame it was given. *)
Definition calls_of (tr : list event) : list (nat * DataFrame) :=
  omap (fun ev => match ev with
                  | ModelPredict m df => Some (m, df)
                  | _ => None
                  end) tr.

(** How many events of the trace satisfy [p]. *)
Definition count (p : event -> bool) (tr : list event) : nat :=
  length (List.filter p tr).

Definition is_page_config (ev : event) : bool :=
  match ev with
  | Draw _ (PageConfig _ _ _) => true
  | _ => false
  end.

Definition is_warning (ev : event) : bool :=
  match ev with
  | Draw _ (Warning _) => true
  | _ => false
  end.

Definition is_slider (ev : event) : bool :=
  match ev with
  | Draw _ (Slider _ _) => true
  | _ => false
  end.

(** The divider and the expander under it. *)
Definition is_footer (ev : event) : bool :=
  match ev with
  | Draw _ Divider | Draw (Expander _) _ => true
  | _ => false
  end.

(** The heading drawn between the model call and the result. *)
Definition result_heading : event :=
  Draw MainArea (Subheader "📈 Resultado de la Predicción").

(** The model, once it is on the disk and may be read. *)
Definition repaired (p : predictor) (fs : filesystem) : filesystem :=
  fun path => if String.eqb path MODEL_PATH then Ok p else fs path.

(** The part of a render that follows the loader. *)
Definition after_load (fs : filesystem) (ss : gmap string Z) (pressed : bool)
    (w : world) : list event :=
  match returned (load_model fs MODEL_PATH w) with
  | Ok mdl =>
      let po := prediction_logic mdl pressed (position AmineFlow_control ss)
                  (position AirFlow_control ss) (position Iron_control ss)
                  (final (load_model fs MODEL_PATH w)) in
      form_events ss ++ intro_events ++ trace po
        ++ match returned po with
           | Ok _ => footer_events
           | Raise _ => []
           end
  | Raise _ => []
  end.

(* ===================================================================== *)
(** ** Disks and models used as examples *)
(* ===================================================================== *)

(** A disk whose only file is the model, holding predictor [p]. *)
Definition disk_with (p : predictor) : filesystem :=
  fun path =>
    if String.eqb path MODEL_PATH then Ok p
    else Raise (mkExn FileNotFoundError
                  ("[Errno 2] No such file or directory: '" +:+ path +:+ "'")).

(** A disk without the model file. *)
Definition empty_disk : filesystem :=
  fun path =>
    Raise (mkExn FileNotFoundError
             ("[Errno 2] No such file or directory: '" +:+ path +:+ "'")).

(** A disk on which the model file exists but may not be read. *)
Definition locked_disk : filesystem :=
  fun path =>
    Raise (mkExn PermissionError
             ("[Errno 13] Permission denied: '" +:+ path +:+ "'")).

(** A stub model that predicts [12.3456] for every row. *)
Definition stub_predictor : predictor :=
  fun _ => Ok (PArray [PFloat float_12_3456]).

(** A model whose [predict] returns an empty array. *)
Definition empty_predictor : predictor := fun _ => Ok (PArray []).

(** A model whose [predict] returns an array holding NaN. *)
Definition nan_predictor : predictor := fun _ => Ok (PArray [PFloat S754_nan]).

(** A model fitted on other feature names, whose [predict] does not look
    at the names of the frame it is given. *)
Definition lenient_artifact : artifact :=
  mkArtifact ["caudal_amina"; "caudal_aire"; "hierro"] stub_predictor.

(** A model whose [predict] refuses every frame with a [ValueError]. *)
Definition refusing_predictor : predictor :=
  fun _ => Raise (mkExn ValueError "feature_names mismatch").

(** A model whose [predict] calls [sys.exit(1)]. *)
Definition exiting_predictor : predictor :=
  fun _ => Raise (mkExn SystemExit "1").

(* ===================================================================== *)
(** ** The loader *)
(* ===================================================================== *)

Section Loader.
Variables (fs : filesystem) (path : string) (w : world).

Lemma load_model_hit v drawn :
  cache w !! path = Some (v, drawn) ->
  load_model fs path w = mkOutcome w drawn (Ok v).
Proof. intros H. unfold load_model, cache_resource. now rewrite H. Qed.

Lemma load_model_loads p :
  cache w !! path = None ->
  fs path = Ok p ->
  load_model fs path w =
    let m := mkModel (next_oid w) p in
    mkOutcome (mkWorld (<[path := (Some m, [])]> (cache w))
                       (S (next_oid w)))
              [JoblibLoad path] (Ok (Some m)).
Proof.
  intros Hc Hf. unfold load_model, cache_resource. rewrite Hc.
  unfold load_model_body, try_except, mbind, M_bind, bind, joblib_load.
  rewrite Hf. reflexivity.
Qed.

Lemma load_model_not_found e :
  cache w !! path = None ->
  fs path = Raise e ->
  is_FileNotFoundError (exn_class_of e) = true ->
  load_model fs path w =
    let box := Draw MainArea (Error (not_found_message path)) in
    mkOutcome (mkWorld (<[path := (None, [box])]> (cache w)) (next_oid w))
              [JoblibLoad path; box] (Ok None).
Proof.
  intros Hc Hf He. unfold load_model, cache_resource. rewrite Hc.
  unfold load_model_body, try_except, mbind, M_bind, bind, joblib_load.
  rewrite Hf. cbn. rewrite He. reflexivity.
Qed.

Lemma load_model_propagates e :
  cache w !! path = None ->
  fs path = Raise e ->
  is_FileNotFoundError (exn_class_of e) = false ->
  load_model fs path w = mkOutcome w [JoblibLoad path] (Raise e).
Proof.
  intros Hc Hf He. unfold load_model, cache_resource. rewrite Hc.
  unfold load_model_body, try_except, mbind, M_bind, bind, joblib_load.
  rewrite Hf. cbn. rewrite He. reflexivity.
Qed.
End Loader.

(* ===================================================================== *)
(** ** The form and the prediction step, run *)
(* ===================================================================== *)

Lemma input_form_run ss w :
  input_form ss w =
    mkOutcome w (form_events ss)
      (Ok (position AmineFlow_control ss, position AirFlow_control ss,
           position Iron_control ss)).
Proof. reflexivity. Qed.

Lemma getitem0_raises_Exception v e :
  getitem0 v = Raise e -> is_Exception (exn_class_of e) = true.
Proof.
  destruct v as [ | | |[|]|[|]|[|]|[|x l]]; cbn;
    try (intros H; inversion H; reflexivity).
  destruct x; intros H; inversion H.
Qed.

Lemma format_2f_raises_Exception v e :
  format_2f v = Raise e -> is_Exception (exn_class_of e) = true.
Proof.
  destruct v; cbn; try (intros H; inversion H; reflexivity).
  destruct (int_to_float z); intros H; inversion H; reflexivity.
Qed.

Section PredictionStep.
Variables (m : model) (a b c : Z) (w : world).
Let df := df_input a b c.
Let asked := ModelPredict (oid m) df.
Let heading := Draw MainArea (Subheader "📈 Resultado de la Predicción").
Let note := Draw MainArea (Info "Este valor representa el porcentaje estimado del producto deseado que se recuperará.").

Lemma predict_and_show_success s :
  formatted_prediction m df = Ok s ->
  predict_and_show m a b c w =
    mkOutcome w
      [asked; heading; Draw MainArea (Success (success_message s)); note]
      (Ok tt).
Proof.
  unfold formatted_prediction, predict_and_show, try_except, model_predict,
    mbind, M_bind, bind, lift. cbn. fold df.
  destruct (predict m df) as [v|e]; [|discriminate]. cbn.
  destruct (getitem0 v) as [x|e]; [|discriminate]. cbn.
  intros ->. reflexivity.
Qed.

Lemma predict_and_show_model_error e :
  predict m df = Raise e ->
  is_Exception (exn_class_of e) = true ->
  predict_and_show m a b c w =
    mkOutcome w [asked; Draw MainArea (Error (error_message e))] (Ok tt).
Proof.
  intros Hp He.
  unfold predict_and_show, try_except, model_predict,
    mbind, M_bind, bind, lift. cbn. fold df. rewrite Hp. cbn.
  rewrite He. reflexivity.
Qed.

Lemma predict_and_show_escapes e :
  predict m df = Raise e ->
  is_Exception (exn_class_of e) = false ->
  predict_and_show m a b c w = mkOutcome w [asked] (Raise e).
Proof.
  intros Hp He.
  unfold predict_and_show, try_except, model_predict,
    mbind, M_bind, bind, lift. cbn. fold df. rewrite Hp. cbn.
  rewrite He. reflexivity.
Qed.

Lemma predict_and_show_late_error v e :
  predict m df = Ok v ->
  formatted_prediction m df = Raise e ->
  predict_and_show m a b c w =
    mkOutcome w [asked; heading; Draw MainArea (Error (error_message e))]
      (Ok tt).
Proof.
  intros Hp. unfold formatted_prediction. rewrite Hp.
  unfold predict_and_show, try_except, model_predict,
    mbind, M_bind, bind, lift. cbn. fold df. rewrite Hp. cbn.
  destruct (getitem0 v) as [x|e'] eqn:Hg; cbn.
  - intros Hf. rewrite Hf. cbn.
    now rewrite (format_2f_raises_Exception _ _ Hf).
  - intros [= ->]. now rewrite (getitem0_raises_Exception _ _ Hg).
Qed.
End PredictionStep.

(* ===================================================================== *)
(** ** One render, run *)
(* ===================================================================== *)

(** The monad's operations, run. *)
Lemma bind_run {A B} (f : A -> M B) (m : M A) w :
  mbind f m w
  = match returned (m w) with
    | Ok a =>
        mkOutcome (final (f a (final (m w))))
          (trace (m w) ++ trace (f a (final (m w))))
          (returned (f a (final (m w))))
    | Raise e => mkOutcome (final (m w)) (trace (m w)) (Raise e)
    end.
Proof. reflexivity. Qed.

Lemma st_draw_run e w : st_draw e w = mkOutcome w [Draw MainArea e] (Ok tt).
Proof. reflexivity. Qed.

Lemma within_run {A} c (body : M A) w :
  within c body w
  = mkOutcome (final (body w)) (map (redirect c) (trace (body w)))
      (returned (body w)).
Proof. reflexivity. Qed.

(** The render is the loader, then the form, then the prediction logic on
    what the loader returned; an exception that leaves either ends it. *)
Lemma script_run fs ss pressed w :
  script fs ss pressed w =
    let lo := load_model fs MODEL_PATH w in
    match returned lo with
    | Ok mdl =>
        let po := prediction_logic mdl pressed
                    (position AmineFlow_control ss)
                    (position AirFlow_control ss)
                    (position Iron_control ss) (final lo) in
        mkOutcome (final po)
          (page_config_event :: trace lo ++ form_events ss ++ intro_events
             ++ trace po
             ++ match returned po with
                | Ok _ => footer_events
                | Raise _ => []
                end)
          (returned po)
    | Raise e => mkOutcome (final lo) (page_config_event :: trace lo) (Raise e)
    end.
Proof.
  unfold script. cbv zeta.
  rewrite bind_run, st_draw_run. cbn [returned final trace].
  rewrite bind_run.
  destruct (load_model fs MODEL_PATH w) as [w1 t1 [mdl|e]];
    cbn [returned final trace]; [|reflexivity].
  rewrite bind_run, input_form_run. cbn [returned final trace].
  rewrite bind_run, st_draw_run. cbn [returned final trace].
  rewrite bind_run, st_draw_run. cbn [returned final trace].
  rewrite bind_run.
  destruct (prediction_logic _ _ _ _ _ w1) as [w2 t2 [[]|e]];
    cbn [returned final trace]; [|now rewrite app_nil_r].
  rewrite bind_run, st_draw_run. cbn [returned final trace].
  rewrite within_run, st_draw_run. cbn [returned final trace map redirect].
  reflexivity.
Qed.

Lemma prediction_logic_pressed m a b c w :
  prediction_logic (Some m) true a b c w =
    let po := predict_and_show m a b c w in
    mkOutcome (final po) (button_event :: trace po) (returned po).
Proof. reflexivity. Qed.

Lemma prediction_logic_idle m a b c w :
  prediction_logic (Some m) false a b c w =
    mkOutcome w [button_event] (Ok tt).
Proof. reflexivity. Qed.

Lemma prediction_logic_no_model pressed a b c w :
  prediction_logic None pressed a b c w =
    mkOutcome w [Draw MainArea (Warning warning_text)] (Ok tt).
Proof. reflexivity. Qed.

(** The four ways the prediction step can go. *)
Lemma predict_and_show_cases m a b c w :
  let df := df_input a b c in
  let po := predict_and_show m a b c w in
  (exists s, formatted_prediction m df = Ok s /\
             po = mkOutcome w
                    [ModelPredict (oid m) df;
                     Draw MainArea (Subheader "📈 Resultado de la Predicción");
                     Draw MainArea (Success (success_message s));
                     Draw MainArea (Info "Este valor representa el porcentaje estimado del producto deseado que se recuperará.")]
                    (Ok tt))
  \/ (exists v e, predict m df = Ok v /\ formatted_prediction m df = Raise e /\
                  po = mkOutcome w
                         [ModelPredict (oid m) df;
                          Draw MainArea (Subheader "📈 Resultado de la Predicción");
                          Draw MainArea (Error (error_message e))]
                         (Ok tt))
  \/ (exists e, predict m df = Raise e /\
                is_Exception (exn_class_of e) = true /\
                po = mkOutcome w
                       [ModelPredict (oid m) df;
                        Draw MainArea (Error (error_message e))]
                       (Ok tt))
  \/ (exists e, predict m df = Raise e /\
                is_Exception (exn_class_of e) = false /\
                po = mkOutcome w [ModelPredict (oid m) df] (Raise e)).
Proof.
  intros df po. subst po.
  destruct (predict m df) as [v|e] eqn:Hp.
  - destruct (formatted_prediction m df) as [s|e] eqn:Hf.
    + left. exists s. split; [reflexivity|].
      now apply predict_and_show_success.
    + right; left. exists v, e. split; [reflexivity|]. split; [reflexivity|].
      now apply predict_and_show_late_error with v.
  - destruct (is_Exception (exn_class_of e)) eqn:He.
    + right; right; left. exists e. split; [reflexivity|]. split; [exact He|].
      now apply predict_and_show_model_error.
    + right; right; right. exists e. split; [reflexivity|]. split; [exact He|].
      now apply predict_and_show_escapes.
Qed.

Lemma predict_and_show_world m a b c w :
  final (predict_and_show m a b c w) = w.
Proof.
  destruct (predict_and_show_cases m a b c w)
    as [(s & _ & ->)|[(v & e & _ & _ & ->)|[(e & _ & _ & ->)|(e & _ & _ & ->)]]];
    reflexivity.
Qed.

Lemma prediction_logic_world mdl pressed a b c w :
  final (prediction_logic mdl pressed a b c w) = w.
Proof.
  destruct mdl as [m|]; [|reflexivity]. destruct pressed; [|reflexivity].
  rewrite prediction_logic_pressed. apply predict_and_show_world.
Qed.

Lemma script_world fs ss pressed w :
  final (script fs ss pressed w) = final (load_model fs MODEL_PATH w).
Proof.
  rewrite script_run. cbn.
  destruct (returned (load_model fs MODEL_PATH w)); cbn; [|reflexivity].
  apply prediction_logic_world.
Qed.

Lemma fresh_world_ok : cache_ok fresh_world.
Proof. intros key v drawn H. cbn in H. now rewrite lookup_empty in H. Qed.

Lemma load_model_cache_ok fs path w :
  cache_ok w -> cache_ok (final (load_model fs path w)).
Proof.
  intros Hok.
  destruct (cache w !! path) as [[v drawn]|] eqn:Hc.
  { now rewrite (load_model_hit _ _ _ _ _ Hc). }
  destruct (fs path) as [p|e] eqn:Hf.
  - rewrite (load_model_loads _ _ _ _ Hc Hf). intros key v drawn.
    cbn [final cache next_oid]. rewrite lookup_insert.
    case_decide as Hk.
    + intros [= <- <-]. right. eexists. split; [reflexivity|].
      split; [reflexivity|]. cbn. lia.
    + intros H. destruct (Hok _ _ _ H) as [?|(m & -> & -> & Hm)]; [now left|].
      right. exists m. repeat split. cbn. lia.
  - destruct (is_FileNotFoundError (exn_class_of e)) eqn:He.
    + rewrite (load_model_not_found _ _ _ _ Hc Hf He). intros key v drawn.
      cbn [final cache next_oid]. rewrite lookup_insert.
      case_decide as Hk.
      * intros [= <- <-]. left. subst key. now split.
      * apply Hok.
    + now rewrite (load_model_propagates _ _ _ _ Hc Hf He).
Qed.

Lemma reachable_cache_ok w : reachable w -> cache_ok w.
Proof.
  induction 1 as [|fs ss pressed w _ IH].
  - apply fresh_world_ok.
  - rewrite script_world. now apply load_model_cache_ok.
Qed.

(* ===================================================================== *)
(** ** Reading traces *)
(* ===================================================================== *)

Lemma none_app p tr1 tr2 : none p tr1 -> none p tr2 -> none p (tr1 ++ tr2).
Proof. unfold none. intros H1 H2. now rewrite forallb_app, H1, H2. Qed.

Lemma none_cons p ev tr : p ev = false -> none p tr -> none p (ev :: tr).
Proof. unfold none. cbn. now intros -> ->. Qed.

Lemma none_nil p : none p [].
Proof. reflexivity. Qed.

Create HintDb trace.
#[local] Hint Resolve none_app none_cons none_nil : trace.

Lemma count_app p tr1 tr2 : count p (tr1 ++ tr2) = (count p tr1 + count p tr2)%nat.
Proof. unfold count. now rewrite List.filter_app, length_app. Qed.

Lemma count_cons p ev tr :
  count p (ev :: tr) = ((if p ev then 1 else 0) + count p tr)%nat.
Proof. unfold count. cbn. now destruct (p ev). Qed.

Lemma none_count p tr : none p tr -> count p tr = 0%nat.
Proof.
  unfold none, count. induction tr as [|ev tr IH]; [reflexivity|].
  cbn. intros H. apply andb_prop in H as [H1 H2].
  destruct (p ev); [discriminate H1|]. now apply IH.
Qed.

Lemma none_omap {B} (f : event -> option B) p tr :
  (forall ev, p ev = false -> f ev = None) -> none p tr -> omap f tr = [].
Proof.
  intros Hf. unfold none. induction tr as [|ev tr IH]; [reflexivity|].
  cbn [forallb]. intros H. apply andb_prop in H as [H1 H2].
  cbn. rewrite Hf by now destruct (p ev). now apply IH.
Qed.

(** The loader draws nothing but its own error box. *)
Lemma load_model_trace fs path w :
  cache_ok w ->
  Forall (fun ev => ev = JoblibLoad path
                    \/ ev = Draw MainArea (Error (not_found_message path)))
         (trace (load_model fs path w)).
Proof.
  intros Hok.
  destruct (cache w !! path) as [[v drawn]|] eqn:Hc.
  { rewrite (load_model_hit _ _ _ _ _ Hc). cbn.
    destruct (Hok _ _ _ Hc) as [[_ ->]|(m & _ & -> & _)]; auto. }
  destruct (fs path) as [p|e] eqn:Hf.
  - rewrite (load_model_loads _ _ _ _ Hc Hf). cbn. auto.
  - destruct (is_FileNotFoundError (exn_class_of e)) eqn:He.
    + rewrite (load_model_not_found _ _ _ _ Hc Hf He). cbn. auto.
    + rewrite (load_model_propagates _ _ _ _ Hc Hf He). cbn. auto.
Qed.

Lemma load_model_none p fs path w :
  cache_ok w ->
  p (JoblibLoad path) = false ->
  p (Draw MainArea (Error (not_found_message path))) = false ->
  none p (trace (load_model fs path w)).
Proof.
  intros Hok H1 H2. pose proof (load_model_trace fs path w Hok) as H.
  induction H as [|ev tr [-> | ->] _ IH]; auto with trace.
Qed.

(** A hit reads no file. *)
Lemma load_model_hit_reads_nothing fs path w v drawn :
  cache_ok w ->
  cache w !! path = Some (v, drawn) ->
  none is_load (trace (load_model fs path w)).
Proof.
  intros Hok Hc. rewrite (load_model_hit _ _ _ _ _ Hc). cbn.
  destruct (Hok _ _ _ Hc) as [[_ ->]|(m & _ & -> & _)]; reflexivity.
Qed.

(** The trace of a render whose loader returned [mdl]. *)
Lemma script_trace_loaded fs ss pressed w mdl :
  returned (load_model fs MODEL_PATH w) = Ok mdl ->
  let po := prediction_logic mdl pressed (position AmineFlow_control ss)
              (position AirFlow_control ss) (position Iron_control ss)
              (final (load_model fs MODEL_PATH w)) in
  script fs ss pressed w =
    mkOutcome (final (load_model fs MODEL_PATH w))
      (page_config_event :: trace (load_model fs MODEL_PATH w)
         ++ form_events ss ++ intro_events ++ trace po
         ++ match returned po with
            | Ok _ => footer_events
            | Raise _ => []
            end)
      (returned po).
Proof.
  intros H. rewrite script_run. cbn zeta. rewrite H.
  now rewrite prediction_logic_world.
Qed.

(* ===================================================================== *)
(** ** The button guard *)
(* ===================================================================== *)

(** Without a press the prediction logic neither asks the model nor draws
    a result. *)
Lemma prediction_logic_unpressed mdl a b c w :
  let po := prediction_logic mdl false a b c w in
  returned po = Ok tt /\ none is_predict (trace po) /\ none is_result (trace po).
Proof. destruct mdl; repeat split. Qed.

Lemma script_unpressed fs ss w :
  reachable w ->
  none is_predict (trace (script fs ss false w))
  /\ none is_result (trace (script fs ss false w)).
Proof.
  intros Hw. apply reachable_cache_ok in Hw.
  rewrite script_run. cbn zeta.
  destruct (returned (load_model fs MODEL_PATH w)) as [mdl|e] eqn:Hl.
  - destruct (prediction_logic_unpressed mdl (position AmineFlow_control ss)
                (position AirFlow_control ss) (position Iron_control ss)
                (final (load_model fs MODEL_PATH w))) as (Hr & Hp & Hs).
    cbn zeta in Hr, Hp, Hs. rewrite Hr. cbn [trace].
    split; (apply none_cons; [reflexivity|]);
      repeat apply none_app; auto; try reflexivity;
      now apply load_model_none.
  - cbn [trace].
    split; (apply none_cons; [reflexivity|]); now apply load_model_none.
Qed.

(** C8. A prediction is made only on a press of the button: in every
    render not caused by a press (in particular in every render caused by
    moving a slider) [model.predict] is not called and no result is drawn. *)
Theorem predict_only_on_button_press fs w :
  reachable w ->
  (forall ss,
      none is_predict (trace (script fs ss false w))
      /\ none is_result (trace (script fs ss false w)))
  /\ (forall c raw ss,
         none is_predict (trace (render fs (Move c raw) ss w))
         /\ none is_result (trace (render fs (Move c raw) ss w))).
Proof.
  intros Hw. split.
  - intros ss. now apply script_unpressed.
  - intros c raw ss. unfold render. cbn [pressed_by].
    now apply script_unpressed.
Qed.

(* ===================================================================== *)
(** ** A failed load *)
(* ===================================================================== *)

(** When the loader returns [None], the cache holds [None] afterwards. *)
Lemma load_model_None_sticks fs w :
  returned (load_model fs MODEL_PATH w) = Ok None ->
  load_failed (final (load_model fs MODEL_PATH w)).
Proof.
  destruct (cache w !! MODEL_PATH) as [[v drawn]|] eqn:Hc.
  { rewrite (load_model_hit _ _ _ _ _ Hc). cbn. intros [= ->]. now exists drawn. }
  destruct (fs MODEL_PATH) as [p|e] eqn:Hf.
  - rewrite (load_model_loads _ _ _ _ Hc Hf). discriminate.
  - destruct (is_FileNotFoundError (exn_class_of e)) eqn:He.
    + rewrite (load_model_not_found _ _ _ _ Hc Hf He). intros _.
      eexists. cbn [final cache]. apply lookup_insert_eq.
    + rewrite (load_model_propagates _ _ _ _ Hc Hf He). discriminate.
Qed.

Lemma load_failed_again fs w :
  load_failed w ->
  returned (load_model fs MODEL_PATH w) = Ok None
  /\ final (load_model fs MODEL_PATH w) = w.
Proof. intros [drawn Hc]. now rewrite (load_model_hit _ _ _ _ _ Hc). Qed.

(** A render whose loader returned [None] is blocked. *)
Lemma script_blocked fs ss pressed w :
  reachable w ->
  returned (load_model fs MODEL_PATH w) = Ok None ->
  blocked (script fs ss pressed w).
Proof.
  intros Hw Hl. apply reachable_cache_ok in Hw.
  rewrite (script_trace_loaded _ _ _ _ _ Hl). cbn zeta.
  rewrite prediction_logic_no_model. cbn [returned trace].
  unfold blocked. cbn [returned trace]. split; [reflexivity|].
  split.
  { unfold shows_warning. right. rewrite !in_app_iff. cbn. tauto. }
  repeat split; (apply none_cons; [reflexivity|]);
    repeat apply none_app; try reflexivity; now apply load_model_none.
Qed.

(** Once the load has failed, every later render of the process is blocked,
    whatever the disk holds by then. *)
Lemma renders_blocked steps w :
  reachable w -> load_failed w -> Forall blocked (renders steps w).
Proof.
  revert w. induction steps as [|[[fs ss] pressed] rest IH]; intros w Hw Hf.
  - constructor.
  - cbn [renders]. destruct (load_failed_again fs w Hf) as [Hr Hfin].
    constructor.
    + now apply script_blocked.
    + apply IH.
      * now constructor.
      * now rewrite script_world, Hfin.
Qed.

(** C2. When the loader returned [None], the render draws no button, asks
    for no prediction and shows the warning, whose text contains
    "El modelo no pudo ser cargado"; and so does every later render of the
    process. *)
Theorem failed_load_blocks_prediction fs ss pressed w :
  reachable w ->
  returned (load_model fs MODEL_PATH w) = Ok None ->
  let o := script fs ss pressed w in
  blocked o
  /\ (exists rest, warning_text = "El modelo no pudo ser cargado" +:+ rest)
  /\ forall steps, Forall blocked (renders steps (final o)).
Proof.
  intros Hw Hl o. split; [now apply script_blocked|]. split.
  - eexists. reflexivity.
  - intros steps. apply renders_blocked.
    + now constructor.
    + subst o. rewrite script_world. now apply load_model_None_sticks.
Qed.

(** C3, as stated, fails: a model file that exists but cannot be read makes
    [joblib.load] raise [PermissionError]; the loader's handler names
    [FileNotFoundError] only, so the loader does not return [None], the
    exception ends the render and no warning is shown. *)
Lemma unreadable_file_escapes_loader :
  let lo := load_model locked_disk MODEL_PATH fresh_world in
  let o := script locked_disk ∅ false fresh_world in
  returned lo
    = Raise (mkExn PermissionError
               "[Errno 13] Permission denied: 'modeloproyecto.joblib'")
  /\ returned lo <> Ok None
  /\ returned o
       = Raise (mkExn PermissionError
                  "[Errno 13] Permission denied: 'modeloproyecto.joblib'")
  /\ ~ shows_warning (trace o).
Proof.
  cbn zeta. split; [reflexivity|]. split; [discriminate|].
  split; [reflexivity|].
  unfold shows_warning. vm_compute. intros H.
  repeat (destruct H as [H|H]; [discriminate H|]). exact H.
Qed.

(** C3, amended. A first load of a path at which [joblib.load] raises reads
    that path once and no other. When the exception is a
    [FileNotFoundError] the loader draws its error box and returns [None],
    and the render is blocked behind the warning; any other exception
    leaves the loader unhandled. *)
Theorem missing_file_yields_none fs path w e :
  cache w !! path = None ->
  fs path = Raise e ->
  let lo := load_model fs path w in
  loads_of (trace lo) = [path]
  /\ (if is_FileNotFoundError (exn_class_of e)
      then returned lo = Ok None
           /\ trace lo = [JoblibLoad path;
                          Draw MainArea (Error (not_found_message path))]
           /\ (path = MODEL_PATH -> reachable w ->
               forall ss pressed, blocked (script fs ss pressed w))
      else returned lo = Raise e /\ trace lo = [JoblibLoad path]).
Proof.
  intros Hc Hf lo. subst lo.
  destruct (is_FileNotFoundError (exn_class_of e)) eqn:He.
  - rewrite (load_model_not_found _ _ _ _ Hc Hf He). cbn zeta.
    cbn [trace returned]. split; [reflexivity|].
    split; [reflexivity|]. split; [reflexivity|].
    intros -> Hw ss pressed. apply script_blocked; [exact Hw|].
    now rewrite (load_model_not_found _ _ _ _ Hc Hf He).
  - rewrite (load_model_propagates _ _ _ _ Hc Hf He). repeat split.
Qed.

(* ===================================================================== *)
(** ** The resource cache *)
(* ===================================================================== *)

Lemma load_model_body_loads fs path w p :
  fs path = Ok p ->
  load_model_body fs path w =
    mkOutcome (mkWorld (cache w) (S (next_oid w))) [JoblibLoad path]
      (Ok (Some (mkModel (next_oid w) p))).
Proof.
  intros Hf.
  unfold load_model_body, try_except, mbind, M_bind, bind, joblib_load.
  rewrite Hf. reflexivity.
Qed.

(** Without the decorator two calls read the file twice and build two
    objects. *)
Lemma undecorated_loader_builds_anew fs path w p :
  fs path = Ok p ->
  let o1 := load_model_body fs path w in
  let o2 := load_model_body fs path (final o1) in
  loads_of (trace o1 ++ trace o2) = [path; path]
  /\ exists m1 m2, returned o1 = Ok (Some m1) /\ returned o2 = Ok (Some m2)
                   /\ oid m1 <> oid m2.
Proof.
  intros Hf. cbn zeta. rewrite (load_model_body_loads _ _ _ _ Hf).
  cbn [final]. rewrite (load_model_body_loads _ _ _ _ Hf).
  cbn [trace returned]. split; [reflexivity|].
  do 2 eexists. split; [reflexivity|]. split; [reflexivity|].
  cbn [oid next_oid]. lia.
Qed.

(** A call that returned leaves its value in the cache. *)
Lemma load_model_stores fs path w v :
  cache_ok w ->
  returned (load_model fs path w) = Ok v ->
  exists drawn, cache (final (load_model fs path w)) !! path = Some (v, drawn).
Proof.
  intros Hok.
  destruct (cache w !! path) as [[v' drawn]|] eqn:Hc.
  { rewrite (load_model_hit _ _ _ _ _ Hc). cbn. intros [= ->]. now exists drawn. }
  destruct (fs path) as [p|e] eqn:Hf.
  - rewrite (load_model_loads _ _ _ _ Hc Hf). cbn zeta. cbn [returned final cache].
    intros [= <-]. eexists. apply lookup_insert_eq.
  - destruct (is_FileNotFoundError (exn_class_of e)) eqn:He.
    + rewrite (load_model_not_found _ _ _ _ Hc Hf He). cbn zeta.
      cbn [returned final cache]. intros [= <-]. eexists. apply lookup_insert_eq.
    + rewrite (load_model_propagates _ _ _ _ Hc Hf He). discriminate.
Qed.

Lemma load_model_reads_at_most_once fs path w :
  cache_ok w -> (length (loads_of (trace (load_model fs path w))) <= 1)%nat.
Proof.
  intros Hok.
  destruct (cache w !! path) as [[v drawn]|] eqn:Hc.
  { rewrite (load_model_hit _ _ _ _ _ Hc). cbn.
    destruct (Hok _ _ _ Hc) as [[_ ->]|(m & _ & -> & _)]; cbn; lia. }
  destruct (fs path) as [p|e] eqn:Hf.
  - rewrite (load_model_loads _ _ _ _ Hc Hf). cbn. lia.
  - destruct (is_FileNotFoundError (exn_class_of e)) eqn:He.
    + rewrite (load_model_not_found _ _ _ _ Hc Hf He). cbn. lia.
    + rewrite (load_model_propagates _ _ _ _ Hc Hf He). cbn. lia.
Qed.

(** C7. When a call of the loader has returned, a second call with the same
    path in the same process returns the identical value (for a model: the
    same object, with the same identity), reads no file and leaves the
    world as it was; the two calls together read the file at most once. *)
Theorem load_model_cached fs1 fs2 path w v :
  reachable w ->
  returned (load_model fs1 path w) = Ok v ->
  let o1 := load_model fs1 path w in
  let o2 := load_model fs2 path (final o1) in
  returned o2 = Ok v
  /\ loads_of (trace o2) = []
  /\ final o2 = final o1
  /\ (length (loads_of (trace o1 ++ trace o2)) <= 1)%nat.
Proof.
  intros Hw Hr o1 o2. apply reachable_cache_ok in Hw.
  destruct (load_model_stores _ _ _ _ Hw Hr) as [drawn Hc].
  pose proof (load_model_cache_ok fs1 path w Hw) as Hok1.
  pose proof (load_model_reads_at_most_once fs1 path w Hw) as Hone.
  fold o1 in Hc, Hok1, Hone. subst o2.
  rewrite (load_model_hit _ _ _ _ _ Hc). cbn [returned trace final].
  assert (Hd : loads_of drawn = []).
  { destruct (Hok1 _ _ _ Hc) as [[_ ->]|(m & _ & -> & _)]; reflexivity. }
  repeat split; [exact Hd|].
  unfold loads_of in *. rewrite omap_app, length_app, Hd. cbn. lia.
Qed.

(* ===================================================================== *)
(** ** The sliders *)
(* ===================================================================== *)

Lemma admits_in_range spec v : admits spec v = true <-> in_range spec v.
Proof. unfold admits, in_range. rewrite andb_true_iff, !Z.leb_le. tauto. Qed.

(** The value of a slider whose declared [value] lies between its bounds
    lies between them too, whatever the browser sent. *)
Lemma current_in_range spec (ss : gmap string Z) :
  in_range spec (value spec) -> in_range spec (current spec ss).
Proof.
  intros Hv. unfold current.
  destruct (ss !! label spec) as [v|]; [|exact Hv].
  destruct (admits spec v) eqn:Ha; [|exact Hv].
  now apply admits_in_range.
Qed.

Lemma spec_of_ranges c : in_range (spec_of c) (value (spec_of c)).
Proof. destruct c; unfold in_range; cbn; lia. Qed.

Lemma label_spec_of_inj c c' : label (spec_of c) = label (spec_of c') -> c = c'.
Proof. destruct c, c'; cbn; intros H; try reflexivity; discriminate H. Qed.

(** Moving one slider sets it, when the position asked for lies between
    its bounds, and leaves the other two where they were. *)
Lemma position_react_move c c' raw (ss : gmap string Z) :
  position c' (react (Move c raw) ss)
  = if decide (c = c')
    then (if admits (spec_of c) raw then raw else value (spec_of c))
    else position c' ss.
Proof.
  unfold position, current. cbn [react]. unfold move_slider.
  case_decide as Hcc.
  - subst c'. now rewrite lookup_insert_eq.
  - rewrite lookup_insert_ne; [reflexivity|].
    intros H. apply Hcc. now apply label_spec_of_inj.
Qed.

Lemma position_react_press c ss : position c (react Press ss) = position c ss.
Proof. reflexivity. Qed.

Lemma session_always_ok (ss : gmap string Z) : session_ok ss.
Proof. intros c. apply current_in_range, spec_of_ranges. Qed.

Lemma session_ok_play evs : session_ok (play evs).
Proof. apply session_always_ok. Qed.

Lemma session_at_positions a b c :
  in_range AmineFlow_slider a -> in_range AirFlow_slider b ->
  in_range Iron_slider c ->
  position AmineFlow_control (session_at a b c) = a
  /\ position AirFlow_control (session_at a b c) = b
  /\ position Iron_control (session_at a b c) = c.
Proof.
  intros Ha Hb Hc. unfold session_at, play. cbn [fold_left].
  rewrite !position_react_move.
  repeat (case_decide; try congruence).
  apply admits_in_range in Ha, Hb, Hc. cbn [spec_of].
  now rewrite Ha, Hb, Hc.
Qed.

(** C5. The form draws exactly three sliders, Amine flow in [241, 740]
    from 300, Air flow in [175, 372] from 180 and Iron concentrate in
    [62, 69] from 63, each with step 1. Whatever the widget state of the
    session, so after every user action, each value the form returns lies
    in its closed range. Moving one slider leaves the other two; the moved
    one takes the position asked for when it lies in the range, and its
    declared value when it does not. *)
Theorem input_form_three_bounded_sliders (ss : gmap string Z) w :
  let o := input_form ss w in
  let AmineFlow := position AmineFlow_control ss in
  let AirFlow := position AirFlow_control ss in
  let Iron := position Iron_control ss in
  returned o = Ok (AmineFlow, AirFlow, Iron)
  /\ sliders_of (trace o)
     = [ (mkSlider "Flujo de Amina (kg/min)" 241 740 300 1, AmineFlow);
         (mkSlider "Flujo de Aire Columna 1(kg/min)" 175 372 180 1, AirFlow);
         (mkSlider "Hierro Concentrado (%)" 62 69 63 1, Iron) ]
  /\ (241 <= AmineFlow <= 740 /\ 175 <= AirFlow <= 372 /\ 62 <= Iron <= 69)
  /\ (position AmineFlow_control ∅ = 300
      /\ position AirFlow_control ∅ = 180
      /\ position Iron_control ∅ = 63)
  /\ (forall evs c,
        in_range (spec_of c) (position c (fold_left (fun s ev => react ev s)
                                            evs ss)))
  /\ forall c c' raw,
       position c' (react (Move c raw) ss)
       = if decide (c = c')
         then (if ((min_value (spec_of c) <=? raw)
                   && (raw <=? max_value (spec_of c)))%Z
               then raw else value (spec_of c))
         else position c' ss.
Proof.
  intros o AmineFlow AirFlow Iron.
  split; [reflexivity|]. split; [reflexivity|]. split.
  - pose proof (session_always_ok ss) as Hok.
    pose proof (Hok AmineFlow_control). pose proof (Hok AirFlow_control).
    pose proof (Hok Iron_control). unfold in_range in *. cbn in *. tauto.
  - split; [repeat split|]. split.
    + intros evs c. apply session_always_ok.
    + intros c c' raw. apply position_react_move.
Qed.

(* ===================================================================== *)
(** ** A pressed render *)
(* ===================================================================== *)

Ltac trace_none :=
  repeat first
    [ reflexivity
    | apply none_cons; [reflexivity|]
    | apply none_app
    | apply load_model_none; [assumption|reflexivity|reflexivity] ].

Ltac trace_in :=
  cbn [trace]; right; rewrite !in_app_iff; cbn [In]; tauto.

Lemma frames_of_app tr1 tr2 :
  frames_of (tr1 ++ tr2) = (frames_of tr1 ++ frames_of tr2)%list.
Proof. apply omap_app. Qed.

Lemma frames_of_cons ev tr :
  frames_of (ev :: tr) = (frames_of [ev] ++ frames_of tr)%list.
Proof. apply (frames_of_app [ev] tr). Qed.

Ltac trace_frames Hnf :=
  rewrite frames_of_cons, !frames_of_app, Hnf; reflexivity.

Lemma omap_nothing {A B} (f : A -> option B) (P : A -> Prop) tr :
  Forall P tr -> (forall x, P x -> f x = None) -> omap f tr = [].
Proof.
  intros H Hf. induction H as [|x tr Hx _ IH]; [reflexivity|].
  cbn. now rewrite (Hf x Hx), IH.
Qed.

Lemma load_model_no_frames fs path w :
  cache_ok w -> frames_of (trace (load_model fs path w)) = [].
Proof.
  intros Hok. eapply omap_nothing; [now apply load_model_trace|].
  now intros ev [-> | ->].
Qed.

Lemma script_pressed fs ss w m :
  returned (load_model fs MODEL_PATH w) = Ok (Some m) ->
  let lo := load_model fs MODEL_PATH w in
  let po := predict_and_show m (position AmineFlow_control ss)
              (position AirFlow_control ss) (position Iron_control ss)
              (final lo) in
  script fs ss true w =
    mkOutcome (final lo)
      (page_config_event :: trace lo ++ form_events ss ++ intro_events
         ++ (button_event :: trace po)
         ++ match returned po with
            | Ok _ => footer_events
            | Raise _ => []
            end)
      (returned po).
Proof.
  intros H. rewrite (script_trace_loaded _ _ _ _ _ H). cbn zeta.
  now rewrite prediction_logic_pressed.
Qed.

(** A pressed render with a loaded model asks the model once, with the
    frame built from the sliders, and then goes one of three ways. *)
Lemma script_pressed_verdict fs ss w m :
  reachable w ->
  returned (load_model fs MODEL_PATH w) = Ok (Some m) ->
  let o := script fs ss true w in
  frames_of (trace o) = [inputs_of ss]
  /\ match formatted_prediction m (inputs_of ss) with
     | Ok s => rendered_result o s
     | Raise e =>
         if is_Exception (exn_class_of e) then rendered_error o e
         else crashed o e
     end.
Proof.
  intros Hw Hl o. apply reachable_cache_ok in Hw.
  subst o. rewrite (script_pressed _ _ _ _ Hl). cbn zeta.
  pose proof (load_model_no_frames fs MODEL_PATH w Hw) as Hnf.
  unfold inputs_of.
  destruct (predict_and_show_cases m (position AmineFlow_control ss)
              (position AirFlow_control ss) (position Iron_control ss)
              (final (load_model fs MODEL_PATH w)))
    as [(s & Hf & ->)|[(v & e & Hp & Hf & ->)|[(e & Hp & He & ->)
                                               |(e & Hp & He & ->)]]];
    cbn [returned trace].
  - split.
    + trace_frames Hnf.
    + rewrite Hf. unfold rendered_result, shows_result.
      split; [reflexivity|]. split; [trace_in|]. cbn [trace]. trace_none.
  - split.
    + trace_frames Hnf.
    + rewrite Hf.
      assert (He : is_Exception (exn_class_of e) = true).
      { unfold formatted_prediction in Hf. rewrite Hp in Hf.
        destruct (getitem0 v) as [x|e'] eqn:Hg.
        - now apply format_2f_raises_Exception with x.
        - injection Hf as ->. now apply getitem0_raises_Exception with v. }
      rewrite He. unfold rendered_error, shows_error.
      split; [reflexivity|]. split; [trace_in|]. cbn [trace]. trace_none.
  - split.
    + trace_frames Hnf.
    + unfold formatted_prediction. rewrite Hp, He.
      unfold rendered_error, shows_error.
      split; [reflexivity|]. split; [trace_in|]. cbn [trace]. trace_none.
  - split.
    + trace_frames Hnf.
    + unfold formatted_prediction. rewrite Hp, He.
      unfold crashed. split; [reflexivity|]. cbn [trace].
      split; trace_none.
Qed.

(** C1, as stated, fails: the handler is [except Exception]; an exception
    outside that hierarchy, here the [SystemExit] of a model that calls
    [sys.exit(1)], is not caught. With the inputs at 300, 180 and 63 the
    render shows neither a result nor an error message and ends with the
    exception. *)
Lemma system_exit_escapes_handler :
  let o := script (disk_with exiting_predictor) (session_at 300 180 63) true
             fresh_world in
  (241 <= 300 <= 740 /\ 175 <= 180 <= 372 /\ 62 <= 63 <= 69)
  /\ frames_of (trace o) = [df_input 300 180 63]
  /\ returned o = Raise (mkExn SystemExit "1")
  /\ none is_success (trace o)
  /\ none is_prediction_error (trace o).
Proof. cbn zeta. split; [lia|]. repeat split; vm_compute; reflexivity. Qed.

(** C1, amended. For inputs inside their ranges a triggered prediction asks
    the model once, with those inputs. It then shows the formatted result,
    or, when the model call, the indexing or the formatting raised an
    instance of [Exception], an error message that ends with the text of
    that exception, and the render completes. An exception that is no
    instance of [Exception] is not caught. *)
Theorem prediction_outcome_is_handled fs w m a b c :
  in_range AmineFlow_slider a ->
  in_range AirFlow_slider b ->
  in_range Iron_slider c ->
  reachable w ->
  returned (load_model fs MODEL_PATH w) = Ok (Some m) ->
  let o := script fs (session_at a b c) true w in
  frames_of (trace o) = [df_input a b c]
  /\ match formatted_prediction m (df_input a b c) with
     | Ok s => rendered_result o s
     | Raise e =>
         if is_Exception (exn_class_of e)
         then rendered_error o e
              /\ error_message e
                 = "Ocurrió un error durante la predicción: " +:+ exn_text e
         else crashed o e
     end.
Proof.
  intros Ha Hb Hc Hw Hl o.
  destruct (session_at_positions a b c Ha Hb Hc) as (Pa & Pb & Pc).
  destruct (script_pressed_verdict fs (session_at a b c) w m Hw Hl) as [Hfr Hv].
  fold o in Hfr, Hv. unfold inputs_of in Hfr, Hv.
  rewrite Pa, Pb, Pc in Hfr, Hv. split; [exact Hfr|].
  destruct (formatted_prediction m (df_input a b c)) as [s|e]; [exact Hv|].
  destruct (is_Exception (exn_class_of e)); [|exact Hv].
  split; [exact Hv|reflexivity].
Qed.



(** An empty prediction has no element 0; a string has no [f] format. *)
Example empty_prediction_raises :
  getitem0 (PArray []) =
    Raise (mkExn IndexError "index 0 is out of bounds for axis 0 with size 0").
Proof. reflexivity. Qed.

Example text_prediction_raises :
  format_2f (PStr "high") =
    Raise (mkExn ValueError "Unknown format code 'f' for object of type 'str'").
Proof. reflexivity. Qed.

(* ===================================================================== *)
(** ** The frame *)
(* ===================================================================== *)

Lemma none_predict_no_frames tr : none is_predict tr -> frames_of tr = [].
Proof.
  unfold none. induction tr as [|ev tr IH]; [reflexivity|].
  cbn [forallb]. intros H. apply andb_prop in H as [H1 H2].
  destruct ev; try discriminate H1; cbn; now apply IH.
Qed.

(** C9. Whatever the session, every frame handed to the model is the one
    built from the three slider values: three columns, one cell each, and
    every cell a Python int. *)
Theorem model_receives_three_integers fs ss pressed w :
  reachable w ->
  Forall (fun df => df = inputs_of ss
                    /\ length df = 3%nat
                    /\ map (fun col => length (snd col)) df = [1; 1; 1]%nat
                    /\ int_cells df = true)
         (frames_of (trace (script fs ss pressed w))).
Proof.
  intros Hw. destruct pressed.
  - destruct (returned (load_model fs MODEL_PATH w)) as [[m|]|e] eqn:Hl.
    + destruct (script_pressed_verdict fs ss w m Hw Hl) as [-> _].
      constructor; [|constructor]. repeat split.
    + destruct (script_blocked fs ss true w Hw Hl) as (_ & _ & _ & Hp & _).
      rewrite (none_predict_no_frames _ Hp). constructor.
    + rewrite script_run. cbn zeta. rewrite Hl. cbn [trace].
      rewrite frames_of_cons, load_model_no_frames
        by now apply reachable_cache_ok.
      constructor.
  - destruct (script_unpressed fs ss w Hw) as [Hp _].
    rewrite (none_predict_no_frames _ Hp). constructor.
Qed.

(** C6, as stated, fails: the script never looks at the names the model
    was fitted on. A model fitted on other names whose [predict] does not
    compare them is handed the frame all the same, and its prediction is
    shown: the mismatch does not fail the prediction step. *)
Lemma mismatched_names_still_predict :
  let o := script (disk_with (behaviour lenient_artifact)) ∅ true
             fresh_world in
  frames_of (trace o)
  = [ [("FlujoAmina", [PInt 300]); ("FlujoAireColumna1", [PInt 180]);
       ("Hierro Concentrado", [PInt 63])] ]
  /\ feature_names lenient_artifact
     <> ["FlujoAmina"; "FlujoAireColumna1"; "Hierro Concentrado"]
  /\ returned o = Ok tt
  /\ In (Draw MainArea (Success "**Rendimiento Predicho:** `12.35%`"))
        (trace o)
  /\ none is_prediction_error (trace o).
Proof.
  cbn zeta. split; [vm_compute; reflexivity|]. split; [discriminate|].
  split; [vm_compute; reflexivity|]. split; [|vm_compute; reflexivity].
  vm_compute. tauto.
Qed.

(** C6, amended. On every trigger the model is handed one frame, built from
    the three current slider values: one row, with the columns FlujoAmina,
    FlujoAireColumna1 and Hierro Concentrado in this order, whatever names
    the model on the disk was fitted on. The script does not compare them:
    the prediction step fails exactly when [predict] raises for that frame.
    An instance of [Exception] raised there is shown in an error box with
    its text and the render completes; when [predict] returns, the step
    goes on to the result heading. *)
Theorem frame_is_fixed_and_predict_decides fs ss w (a : artifact) m :
  reachable w ->
  returned (load_model fs MODEL_PATH w) = Ok (Some m) ->
  predict m = behaviour a ->
  let o := script fs ss true w in
  frames_of (trace o)
  = [ [("FlujoAmina", [PInt (position AmineFlow_control ss)]);
       ("FlujoAireColumna1", [PInt (position AirFlow_control ss)]);
       ("Hierro Concentrado", [PInt (position Iron_control ss)])] ]
  /\ match behaviour a (inputs_of ss) with
     | Raise e =>
         if is_Exception (exn_class_of e)
         then returned o = Ok tt
              /\ In (Draw MainArea
                       (Error ("Ocurrió un error durante la predicción: "
                               +:+ exn_text e)))
                    (trace o)
              /\ none is_result (trace o)
         else crashed o e
     | Ok _ => In result_heading (trace o)
     end.
Proof.
  intros Hw Hl Hm o.
  destruct (script_pressed_verdict fs ss w m Hw Hl) as [Hfr Hv].
  split; [exact Hfr|]. rewrite <- Hm.
  cbn zeta in Hv. unfold formatted_prediction in Hv.
  apply reachable_cache_ok in Hw. subst o.
  destruct (predict m (inputs_of ss)) as [v|e] eqn:Hp.
  - rewrite (script_pressed _ _ _ _ Hl). cbn zeta. cbn [trace].
    destruct (predict_and_show_cases m (position AmineFlow_control ss)
                (position AirFlow_control ss) (position Iron_control ss)
                (final (load_model fs MODEL_PATH w)))
      as [(s & _ & ->)|[(v' & e & _ & _ & ->)|[(e & Hp' & _)|(e & Hp' & _)]]];
      try (unfold inputs_of in Hp; cbn zeta in Hp'; congruence);
      cbn [trace returned]; right; rewrite !in_app_iff; cbn [In];
      unfold result_heading; tauto.
  - destruct (is_Exception (exn_class_of e)) eqn:He; [|exact Hv].
    destruct Hv as (Hr & Hshow & _).
    split; [exact Hr|]. split; [exact Hshow|].
    rewrite (script_pressed _ _ _ _ Hl). cbn zeta. cbn [trace].
    rewrite (predict_and_show_model_error _ _ _ _ _ e Hp He).
    cbn [trace returned]. trace_none.
Qed.

(* ===================================================================== *)
(** ** Two decimals *)
(* ===================================================================== *)

Lemma string_of_uint_digits d :
  all_digits (NilEmpty.string_of_uint d) = true.
Proof. induction d; cbn; auto. Qed.

Lemma decimal_digits n : all_digits (decimal n) = true /\ decimal n <> "".
Proof.
  unfold decimal, NilZero.string_of_uint.
  destruct (N.to_uint (Z.to_N n)) as [|d|d|d|d|d|d|d|d|d|d]; cbn;
    try (split; [apply string_of_uint_digits|discriminate]).
  split; [reflexivity|discriminate].
Qed.

Lemma digit_char_digit d : 0 <= d <= 9 -> is_digit (digit_char d) = true.
Proof.
  intros H.
  assert (Hd : d = 0 \/ d = 1 \/ d = 2 \/ d = 3 \/ d = 4 \/ d = 5 \/ d = 6
               \/ d = 7 \/ d = 8 \/ d = 9) by lia.
  repeat (destruct Hd as [-> | Hd]; [reflexivity|]). now subst d.
Qed.

Lemma fixed2_two_decimals s h : 0 <= h -> two_decimals (fixed2 s h).
Proof.
  intros Hh. unfold two_decimals, fixed2.
  exists (sign_prefix s), (decimal (h / 100)),
    (digit_char (h mod 100 / 10)), (digit_char ((h mod 100) mod 10)).
  pose proof (Z.mod_pos_bound h 100 ltac:(lia)) as Hm.
  pose proof (Z.mod_pos_bound (h mod 100) 10 ltac:(lia)).
  assert (0 <= h mod 100 / 10 <= 9).
  { split; [apply Z.div_pos; lia|].
    apply Z.lt_succ_r. apply Z.div_lt_upper_bound; lia. }
  split; [reflexivity|]. split; [destruct s; cbn; auto|].
  split; [apply decimal_digits|]. split; [apply decimal_digits|].
  split; apply digit_char_digit; lia.
Qed.

Lemma round_half_even_nearest num den :
  0 <= num -> 0 < den ->
  0 <= round_half_even num den
  /\ 2 * Z.abs (round_half_even num den * den - num) <= den.
Proof.
  intros Hn Hd. unfold round_half_even.
  pose proof (Z.div_mod num den ltac:(lia)) as Hdm.
  pose proof (Z.mod_pos_bound num den Hd) as Hr.
  assert (Hq : 0 <= num / den) by (apply Z.div_pos; lia).
  revert Hdm Hr Hq. generalize (num / den) (num mod den). intros q r Hdm Hr Hq.
  assert (Hlo : q * den - num = - r) by lia.
  assert (Hhi : (q + 1) * den - num = den - r) by lia.
  destruct (2 * r ?= den)%Z eqn:Hcmp.
  - apply Z.compare_eq in Hcmp.
    destruct (Z.even q); [rewrite Hlo|rewrite Hhi]; lia.
  - rewrite Z.compare_lt_iff in Hcmp. rewrite Hlo. lia.
  - rewrite Z.compare_gt_iff in Hcmp. rewrite Hhi. lia.
Qed.

Lemma hundredths_nearest m e :
  0 <= hundredths m e /\ nearest_hundredth m e (hundredths m e).
Proof.
  unfold nearest_hundredth, hundredths. destruct e as [|p|p].
  - change (Z.max 0 (- 0)) with 0. change (Z.max 0 0) with 0.
    change (2 ^ 0) with 1. split; lia.
  - rewrite Z.max_l, Z.max_r by lia.
    assert (0 < 2 ^ Z.pos p) by (apply Z.pow_pos_nonneg; lia).
    rewrite Z.pow_0_r. split; [nia|].
    replace (_ - _) with 0 by lia. cbn. lia.
  - replace (Z.max 0 (- Z.neg p)) with (Z.pos p) by lia.
    rewrite Z.max_l by lia.
    assert (0 < 2 ^ Z.pos p) by (apply Z.pow_pos_nonneg; lia).
    rewrite Z.pow_0_r, Z.mul_1_r.
    apply round_half_even_nearest; lia.
Qed.

Lemma round_half_even_tie num den :
  0 <= num -> 0 < den ->
  2 * Z.abs (round_half_even num den * den - num) = den ->
  Z.even (round_half_even num den) = true.
Proof.
  intros Hn Hd. unfold round_half_even.
  pose proof (Z.div_mod num den ltac:(lia)) as Hdm.
  pose proof (Z.mod_pos_bound num den Hd) as Hr.
  revert Hdm Hr. generalize (num / den) (num mod den). intros q r Hdm Hr.
  assert (Hlo : q * den - num = - r) by lia.
  assert (Hhi : (q + 1) * den - num = den - r) by lia.
  destruct (2 * r ?= den)%Z eqn:Hcmp.
  - intros _. destruct (Z.even q) eqn:Hq; [exact Hq|].
    rewrite Z.even_add, Hq. reflexivity.
  - rewrite Z.compare_lt_iff in Hcmp. rewrite Hlo. lia.
  - rewrite Z.compare_gt_iff in Hcmp. rewrite Hhi. lia.
Qed.

Lemma hundredths_tie m e : tie_goes_to_even m e (hundredths m e).
Proof.
  unfold tie_goes_to_even, hundredths. destruct e as [|p|p].
  - change (Z.max 0 (- 0)) with 0. change (Z.max 0 0) with 0.
    change (2 ^ 0) with 1. lia.
  - rewrite Z.max_l, Z.max_r by lia. rewrite Z.pow_0_r.
    replace (_ - _) with 0 by lia. cbn. lia.
  - replace (Z.max 0 (- Z.neg p)) with (Z.pos p) by lia.
    rewrite Z.max_l by lia.
    assert (0 < 2 ^ Z.pos p) by (apply Z.pow_pos_nonneg; lia).
    rewrite Z.pow_0_r, Z.mul_1_r.
    apply round_half_even_tie; lia.
Qed.

(** *** Reading the text back gives the number that was formatted *)

Lemma digit_is_no_punctuation c :
  is_digit c = true -> Ascii.eqb c "." = false /\ Ascii.eqb c "-" = false.
Proof.
  intros H. split.
  - destruct (Ascii.eqb_spec c "."); [subst; discriminate H|reflexivity].
  - destruct (Ascii.eqb_spec c "-"); [subst; discriminate H|reflexivity].
Qed.

Lemma digit_value_digit_char d :
  0 <= d <= 9 -> digit_value (digit_char d) = Some d.
Proof.
  intros H.
  assert (Hd : d = 0 \/ d = 1 \/ d = 2 \/ d = 3 \/ d = 4 \/ d = 5 \/ d = 6
               \/ d = 7 \/ d = 8 \/ d = 9) by lia.
  repeat (destruct Hd as [-> | Hd]; [reflexivity|]). now subst d.
Qed.

Lemma read_digits_string_of_uint d :
  d <> Decimal.Nil ->
  read_digits (NilEmpty.string_of_uint d) = Some (Z.of_N (N.of_uint d)).
Proof.
  intros Hd. pose proof (NilEmpty.usu d) as H.
  destruct d; [congruence|..]; cbn [NilEmpty.string_of_uint] in *;
    unfold read_digits; now rewrite H.
Qed.

Lemma read_digits_decimal n : 0 <= n -> read_digits (decimal n) = Some n.
Proof.
  intros Hn. unfold decimal.
  pose proof (DecimalN.Unsigned.of_to (Z.to_N n)) as Hof.
  assert (Hz : Z.of_N (N.of_uint (N.to_uint (Z.to_N n))) = n)
    by (rewrite Hof; now apply Z2N.id).
  destruct (N.to_uint (Z.to_N n)) as [|d|d|d|d|d|d|d|d|d|d] eqn:Hd.
  - cbn in Hz. subst n. reflexivity.
  - change (NilZero.string_of_uint (Decimal.D0 d))
      with (NilEmpty.string_of_uint (Decimal.D0 d)).
    now rewrite read_digits_string_of_uint, Hz.
  - change (NilZero.string_of_uint (Decimal.D1 d))
      with (NilEmpty.string_of_uint (Decimal.D1 d)).
    now rewrite read_digits_string_of_uint, Hz.
  - change (NilZero.string_of_uint (Decimal.D2 d))
      with (NilEmpty.string_of_uint (Decimal.D2 d)).
    now rewrite read_digits_string_of_uint, Hz.
  - change (NilZero.string_of_uint (Decimal.D3 d))
      with (NilEmpty.string_of_uint (Decimal.D3 d)).
    now rewrite read_digits_string_of_uint, Hz.
  - change (NilZero.string_of_uint (Decimal.D4 d))
      with (NilEmpty.string_of_uint (Decimal.D4 d)).
    now rewrite read_digits_string_of_uint, Hz.
  - change (NilZero.string_of_uint (Decimal.D5 d))
      with (NilEmpty.string_of_uint (Decimal.D5 d)).
    now rewrite read_digits_string_of_uint, Hz.
  - change (NilZero.string_of_uint (Decimal.D6 d))
      with (NilEmpty.string_of_uint (Decimal.D6 d)).
    now rewrite read_digits_string_of_uint, Hz.
  - change (NilZero.string_of_uint (Decimal.D7 d))
      with (NilEmpty.string_of_uint (Decimal.D7 d)).
    now rewrite read_digits_string_of_uint, Hz.
  - change (NilZero.string_of_uint (Decimal.D8 d))
      with (NilEmpty.string_of_uint (Decimal.D8 d)).
    now rewrite read_digits_string_of_uint, Hz.
  - change (NilZero.string_of_uint (Decimal.D9 d))
      with (NilEmpty.string_of_uint (Decimal.D9 d)).
    now rewrite read_digits_string_of_uint, Hz.
Qed.

Lemma split_point_digits whole rest :
  all_digits whole = true ->
  split_point (whole +:+ String "." rest) = Some (whole, rest).
Proof.
  induction whole as [|c whole IH]; [reflexivity|].
  cbn [all_digits]. intros H. apply andb_prop in H as [Hc Hw].
  change (String c whole +:+ ?x) with (String c (whole +:+ x)).
  cbn [split_point].
  destruct (digit_is_no_punctuation c Hc) as [-> _]. now rewrite IH.
Qed.

Lemma read_fixed2_fixed2 s h : 0 <= h -> read_fixed2 (fixed2 s h) = Some (s, h).
Proof.
  intros Hh. unfold fixed2.
  pose proof (Z.mod_pos_bound h 100 ltac:(lia)) as Hm.
  pose proof (Z.mod_pos_bound (h mod 100) 10 ltac:(lia)) as Hm10.
  pose proof (Z.div_mod h 100 ltac:(lia)) as Hdm.
  pose proof (Z.div_mod (h mod 100) 10 ltac:(lia)) as Hdm10.
  assert (Hq : 0 <= h / 100) by (apply Z.div_pos; lia).
  assert (Hq10 : 0 <= h mod 100 / 10 <= 9).
  { split; [apply Z.div_pos; lia|].
    apply Z.lt_succ_r. apply Z.div_lt_upper_bound; lia. }
  destruct (decimal_digits (h / 100)) as [Hdig Hne].
  pose proof (read_digits_decimal (h / 100) Hq) as Hread.
  assert (Hbody : forall sg,
             match split_point (decimal (h / 100) +:+ "."
                                +:+ two_digits (h mod 100)) with
             | Some (whole, String d1 (String d2 EmptyString)) =>
                 match read_digits whole, digit_value d1, digit_value d2 with
                 | Some n, Some a, Some b => Some (sg, 100 * n + 10 * a + b)
                 | _, _, _ => None
                 end
             | _ => None
             end = Some (sg : bool, h)).
  { intros sg.
    change ("." +:+ two_digits (h mod 100))
      with (String "." (two_digits (h mod 100))).
    rewrite (split_point_digits _ _ Hdig). unfold two_digits.
    rewrite Hread, !digit_value_digit_char by lia. f_equal. f_equal. lia. }
  unfold read_fixed2. destruct s; cbn [sign_prefix].
  - change ("-" +:+ ?x) with (String "-" x). cbn [Ascii.eqb Bool.eqb snd fst].
    cbn beta iota. apply Hbody.
  - change ("" +:+ ?x) with x.
    destruct (decimal (h / 100)) as [|c rest] eqn:Hdec; [congruence|].
    cbn in Hdig. apply andb_prop in Hdig as [Hc _].
    destruct (digit_is_no_punctuation c Hc) as [_ Hminus].
    specialize (Hbody false).
    change (String c rest +:+ ?x) with (String c (rest +:+ x)) in *.
    cbv beta iota zeta. rewrite Hminus. cbn [snd fst]. exact Hbody.
Qed.

Lemma nan_is_no_number :
  ~ two_decimals "nan" /\ read_fixed2 "nan" = None.
Proof.
  split; [|reflexivity].
  intros (sign & whole & d1 & d2 & Heq & Hsign & Hne & Hdig & _).
  destruct whole as [|c rest]; [congruence|].
  cbn in Hdig. apply andb_prop in Hdig as [Hc _].
  destruct Hsign as [-> | ->]; cbn in Heq; [|discriminate Heq].
  injection Heq as <- _. discriminate Hc.
Qed.

(** The literal [12.3456] denotes this binary64 value: it is the correctly
    rounded quotient of 123456 by 10000. *)
Example float_12_3456_is_the_literal :
  SFdiv prec emax (int_to_float 123456) (int_to_float 10000) = float_12_3456
  /\ valid_binary prec emax float_12_3456 = true.
Proof. split; vm_compute; reflexivity. Qed.

Lemma success_message_text formatted :
  success_message formatted
  = "**Rendimiento Predicho:** `" +:+ formatted +:+ "%`".
Proof.
  unfold success_message, result_string. f_equal.
  induction formatted as [|c rest IH]; [reflexivity|].
  change (String c rest +:+ ?x) with (String c (rest +:+ x)).
  change (String c (rest +:+ "%") +:+ ?x)
    with (String c ((rest +:+ "%") +:+ x)).
  now rewrite IH.
Qed.

(** C4, as stated, fails: a prediction that is NaN succeeds and is shown as
    "nan%", a text without decimal places. *)
Lemma nan_prediction_has_no_decimals :
  let o := script (disk_with nan_predictor) (session_at 300 180 63) true
             fresh_world in
  returned o = Ok tt
  /\ In (Draw MainArea (Success "**Rendimiento Predicho:** `nan%`")) (trace o)
  /\ none is_prediction_error (trace o)
  /\ float_format_2f S754_nan = "nan"
  /\ ~ two_decimals "nan"
  /\ read_fixed2 "nan" = None.
Proof.
  cbn zeta. split; [vm_compute; reflexivity|].
  split; [vm_compute; tauto|]. split; [vm_compute; reflexivity|].
  split; [reflexivity|]. apply nan_is_no_number.
Qed.

(** C4, amended. When the prediction succeeds with a float at position 0,
    the success box shows that number formatted with [.2f], followed by a
    percent sign. For a finite number the text is an optional minus sign,
    the integer digits, a point and exactly two digits, and read back it
    is the sign of the number and its magnitude correctly rounded to
    hundredths, ties to even; NaN and the infinities are shown by name.
    With the inputs 300, 180 and 63 and a stub model that returns 12.3456,
    the text shown is "12.35%". *)
Theorem result_has_two_decimals fs ss w m v f :
  reachable w ->
  returned (load_model fs MODEL_PATH w) = Ok (Some m) ->
  predict m (inputs_of ss) = Ok v ->
  getitem0 v = Ok (PFloat f) ->
  let o := script fs ss true w in
  (returned o = Ok tt
   /\ In (Draw MainArea
            (Success ("**Rendimiento Predicho:** `"
                      +:+ float_format_2f f +:+ "%`")))
         (trace o)
   /\ none is_prediction_error (trace o)
   /\ match f with
      | S754_finite s mant e =>
          read_fixed2 (float_format_2f f) = Some (s, hundredths mant e)
          /\ nearest_hundredth mant e (hundredths mant e)
          /\ tie_goes_to_even mant e (hundredths mant e)
          /\ two_decimals (float_format_2f f)
      | S754_zero s =>
          read_fixed2 (float_format_2f f) = Some (s, 0)
          /\ two_decimals (float_format_2f f)
      | S754_infinity s => float_format_2f f = if s then "-inf" else "inf"
      | S754_nan => float_format_2f f = "nan"
      end)
  /\ (let o' := script (disk_with stub_predictor) (session_at 300 180 63) true
                  fresh_world in
      frames_of (trace o') = [df_input 300 180 63]
      /\ returned o' = Ok tt
      /\ In (Draw MainArea (Success "**Rendimiento Predicho:** `12.35%`"))
            (trace o')
      /\ float_format_2f float_12_3456 = "12.35").
Proof.
  intros Hw Hl Hp Hg o. split.
  - destruct (script_pressed_verdict fs ss w m Hw Hl) as [_ Hv].
    cbn zeta in Hv. unfold formatted_prediction in Hv.
    rewrite Hp, Hg in Hv. cbn [format_2f] in Hv.
    destruct Hv as (Hr & Hshow & Hnone).
    unfold shows_result in Hshow. rewrite success_message_text in Hshow.
    split; [exact Hr|]. split; [exact Hshow|]. split; [exact Hnone|].
    destruct f as [s|s| |s mant e].
    + split; [now apply read_fixed2_fixed2|]. apply fixed2_two_decimals. lia.
    + now destruct s.
    + reflexivity.
    + split; [apply read_fixed2_fixed2, hundredths_nearest|].
      split; [apply hundredths_nearest|]. split; [apply hundredths_tie|].
      apply fixed2_two_decimals, hundredths_nearest.
  - cbn zeta. split; [vm_compute; reflexivity|].
    split; [vm_compute; reflexivity|]. split; [|vm_compute; reflexivity].
    vm_compute. tauto.
Qed.

(** A call that raised stored nothing: the next call reads the file
    again. *)
Lemma raising_load_is_not_cached fs path w e :
  cache w !! path = None ->
  fs path = Raise e ->
  is_FileNotFoundError (exn_class_of e) = false ->
  let o1 := load_model fs path w in
  let o2 := load_model fs path (final o1) in
  returned o1 = Raise e /\ returned o2 = Raise e
  /\ loads_of (trace o1 ++ trace o2) = [path; path].
Proof.
  intros Hc Hf He. cbn zeta.
  rewrite (load_model_propagates _ _ _ _ Hc Hf He). cbn [final].
  rewrite (load_model_propagates _ _ _ _ Hc Hf He). repeat split.
Qed.

(* ===================================================================== *)
(** ** The theorems at concrete inputs *)
(* ===================================================================== *)

Lemma prediction_outcome_is_handled_witness :
  let o := script (disk_with stub_predictor) (session_at 300 180 63) true
             fresh_world in
  (in_range AmineFlow_slider 300 /\ in_range AirFlow_slider 180
   /\ in_range Iron_slider 63)
  /\ reachable fresh_world
  /\ returned (load_model (disk_with stub_predictor) MODEL_PATH fresh_world)
     = Ok (Some (mkModel 0 stub_predictor))
  /\ frames_of (trace o) = [df_input 300 180 63]
  /\ rendered_result o "12.35".
Proof.
  assert (Ha : in_range AmineFlow_slider 300) by (unfold in_range; cbn; lia).
  assert (Hb : in_range AirFlow_slider 180) by (unfold in_range; cbn; lia).
  assert (Hc : in_range Iron_slider 63) by (unfold in_range; cbn; lia).
  cbn zeta. split; [auto|]. split; [constructor|]. split; [reflexivity|].
  exact (prediction_outcome_is_handled (disk_with stub_predictor) fresh_world
           (mkModel 0 stub_predictor) 300 180 63 Ha Hb Hc reachable_fresh
           eq_refl).
Defined.

Lemma failed_load_blocks_prediction_witness :
  let o := script empty_disk ∅ true fresh_world in
  reachable fresh_world
  /\ returned (load_model empty_disk MODEL_PATH fresh_world) = Ok None
  /\ blocked o
  /\ (exists rest, warning_text = "El modelo no pudo ser cargado" +:+ rest)
  /\ forall steps, Forall blocked (renders steps (final o)).
Proof.
  cbn zeta. split; [constructor|]. split; [reflexivity|].
  exact (failed_load_blocks_prediction empty_disk ∅ true fresh_world
           reachable_fresh eq_refl).
Defined.

Lemma missing_file_yields_none_witness :
  let lo := load_model empty_disk MODEL_PATH fresh_world in
  cache fresh_world !! MODEL_PATH = None
  /\ empty_disk MODEL_PATH
     = Raise (mkExn FileNotFoundError
                "[Errno 2] No such file or directory: 'modeloproyecto.joblib'")
  /\ loads_of (trace lo) = [MODEL_PATH]
  /\ returned lo = Ok None
  /\ trace lo = [JoblibLoad MODEL_PATH;
                 Draw MainArea (Error (not_found_message MODEL_PATH))]
  /\ (MODEL_PATH = MODEL_PATH -> reachable fresh_world ->
      forall ss pressed, blocked (script empty_disk ss pressed fresh_world)).
Proof.
  cbn zeta. split; [reflexivity|]. split; [reflexivity|].
  exact (missing_file_yields_none empty_disk MODEL_PATH fresh_world
           (mkExn FileNotFoundError
              "[Errno 2] No such file or directory: 'modeloproyecto.joblib'")
           eq_refl eq_refl).
Defined.

Lemma result_has_two_decimals_witness :
  let fs := disk_with stub_predictor in
  let ss := session_at 300 180 63 in
  let o := script fs ss true fresh_world in
  reachable fresh_world
  /\ returned (load_model fs MODEL_PATH fresh_world)
     = Ok (Some (mkModel 0 stub_predictor))
  /\ stub_predictor (inputs_of ss) = Ok (PArray [PFloat float_12_3456])
  /\ getitem0 (PArray [PFloat float_12_3456]) = Ok (PFloat float_12_3456)
  /\ returned o = Ok tt
  /\ In (Draw MainArea (Success "**Rendimiento Predicho:** `12.35%`"))
        (trace o)
  /\ read_fixed2 "12.35" = Some (false, 1235)
  /\ two_decimals "12.35".
Proof.
  cbn zeta. split; [constructor|]. split; [reflexivity|].
  split; [reflexivity|]. split; [reflexivity|].
  destruct (result_has_two_decimals (disk_with stub_predictor)
              (session_at 300 180 63) fresh_world
              (mkModel 0 stub_predictor) (PArray [PFloat float_12_3456])
              float_12_3456 reachable_fresh eq_refl eq_refl eq_refl)
    as [(Hr & Hin & _ & Hread & _ & _ & Htwo) _].
  split; [exact Hr|]. split; [exact Hin|]. split; [exact Hread|exact Htwo].
Defined.

Lemma frame_is_fixed_and_predict_decides_witness :
  let a := mkArtifact ["caudal_amina"; "caudal_aire"; "hierro"]
             refusing_predictor in
  let fs := disk_with (behaviour a) in
  let o := script fs ∅ true fresh_world in
  reachable fresh_world
  /\ returned (load_model fs MODEL_PATH fresh_world)
     = Ok (Some (mkModel 0 refusing_predictor))
  /\ frames_of (trace o)
     = [ [("FlujoAmina", [PInt 300]); ("FlujoAireColumna1", [PInt 180]);
          ("Hierro Concentrado", [PInt 63])] ]
  /\ returned o = Ok tt
  /\ In (Draw MainArea
           (Error "Ocurrió un error durante la predicción: feature_names mismatch"))
        (trace o)
  /\ none is_result (trace o).
Proof.
  cbn zeta. split; [constructor|]. split; [reflexivity|].
  destruct (frame_is_fixed_and_predict_decides
              (disk_with refusing_predictor) ∅ fresh_world
              (mkArtifact ["caudal_amina"; "caudal_aire"; "hierro"]
                 refusing_predictor)
              (mkModel 0 refusing_predictor)
              reachable_fresh eq_refl eq_refl)
    as (Hfr & Hr & Hin & Hnone).
  split; [exact Hfr|]. split; [exact Hr|]. split; [exact Hin|exact Hnone].
Defined.

Lemma load_model_cached_witness :
  let o1 := load_model (disk_with stub_predictor) MODEL_PATH fresh_world in
  let o2 := load_model empty_disk MODEL_PATH (final o1) in
  reachable fresh_world
  /\ returned o1 = Ok (Some (mkModel 0 stub_predictor))
  /\ returned o2 = Ok (Some (mkModel 0 stub_predictor))
  /\ loads_of (trace o2) = []
  /\ final o2 = final o1
  /\ (length (loads_of (trace o1 ++ trace o2)) <= 1)%nat.
Proof.
  cbn zeta. split; [constructor|]. split; [reflexivity|].
  exact (load_model_cached (disk_with stub_predictor) empty_disk MODEL_PATH
           fresh_world (Some (mkModel 0 stub_predictor)) reachable_fresh
           eq_refl).
Defined.

Lemma predict_only_on_button_press_witness :
  let fs := disk_with stub_predictor in
  reachable fresh_world
  /\ (forall ss,
         none is_predict (trace (script fs ss false fresh_world))
         /\ none is_result (trace (script fs ss false fresh_world)))
  /\ (forall c raw ss,
         none is_predict (trace (render fs (Move c raw) ss fresh_world))
         /\ none is_result (trace (render fs (Move c raw) ss fresh_world))).
Proof.
  cbn zeta. split; [constructor|].
  exact (predict_only_on_button_press (disk_with stub_predictor) fresh_world
           reachable_fresh).
Defined.

Lemma model_receives_three_integers_witness :
  let ss := session_at 300 180 63 in
  reachable fresh_world
  /\ Forall (fun df => df = inputs_of ss
                       /\ length df = 3%nat
                       /\ map (fun col => length (snd col)) df = [1; 1; 1]%nat
                       /\ int_cells df = true)
            (frames_of (trace (script (disk_with stub_predictor) ss true
                                 fresh_world))).
Proof.
  cbn zeta. split; [constructor|].
  exact (model_receives_three_integers (disk_with stub_predictor)
           (session_at 300 180 63) true fresh_world reachable_fresh).
Defined.


(* ===================================================================== *)
(** ** Further properties of a render *)
(* ===================================================================== *)

(** The prediction step draws nothing but its heading, its boxes and the
    call itself. *)
Lemma predict_and_show_none p m a b c w :
  p (ModelPredict (oid m) (df_input a b c)) = false ->
  (forall s, p (Draw MainArea (Subheader s)) = false) ->
  (forall s, p (Draw MainArea (Success s)) = false) ->
  (forall s, p (Draw MainArea (Info s)) = false) ->
  (forall e, p (Draw MainArea (Error (error_message e))) = false) ->
  none p (trace (predict_and_show m a b c w)).
Proof.
  intros Hc Hh Hs Hi He.
  destruct (predict_and_show_cases m a b c w)
    as [(s & _ & ->)|[(v & e & _ & _ & ->)|[(e & _ & _ & ->)|(e & _ & _ & ->)]]];
    cbn [trace]; repeat (apply none_cons; [auto|]); apply none_nil.
Qed.

Lemma prediction_logic_none p mdl pressed a b c w :
  p button_event = false ->
  p (Draw MainArea (Warning warning_text)) = false ->
  (forall m df, p (ModelPredict m df) = false) ->
  (forall s, p (Draw MainArea (Subheader s)) = false) ->
  (forall s, p (Draw MainArea (Success s)) = false) ->
  (forall s, p (Draw MainArea (Info s)) = false) ->
  (forall e, p (Draw MainArea (Error (error_message e))) = false) ->
  none p (trace (prediction_logic mdl pressed a b c w)).
Proof.
  intros Hb Hw Hc Hh Hs Hi He. destruct mdl as [m|].
  - destruct pressed.
    + rewrite prediction_logic_pressed. cbn [trace].
      apply none_cons; [exact Hb|]. now apply predict_and_show_none.
    + rewrite prediction_logic_idle. cbn [trace].
      apply none_cons; [exact Hb|apply none_nil].
  - rewrite prediction_logic_no_model. cbn [trace].
    apply none_cons; [exact Hw|apply none_nil].
Qed.

(** What a first or a later call of the loader reads. *)
Lemma load_model_reads fs path w :
  cache_ok w ->
  loads_of (trace (load_model fs path w))
  = match cache w !! path with
    | Some _ => []
    | None => [path]
    end.
Proof.
  intros Hok.
  destruct (cache w !! path) as [[v drawn]|] eqn:Hc.
  { rewrite (load_model_hit _ _ _ _ _ Hc). cbn [trace].
    destruct (Hok _ _ _ Hc) as [[_ ->]|(m & _ & -> & _)]; reflexivity. }
  destruct (fs path) as [p|e] eqn:Hf.
  - now rewrite (load_model_loads _ _ _ _ Hc Hf).
  - destruct (is_FileNotFoundError (exn_class_of e)) eqn:He.
    + now rewrite (load_model_not_found _ _ _ _ Hc Hf He).
    + now rewrite (load_model_propagates _ _ _ _ Hc Hf He).
Qed.

Lemma script_trace_split fs ss pressed w :
  trace (script fs ss pressed w)
  = page_config_event :: trace (load_model fs MODEL_PATH w)
      ++ after_load fs ss pressed w.
Proof.
  rewrite script_run. unfold after_load. cbn zeta.
  destruct (returned (load_model fs MODEL_PATH w)); cbn [trace];
    [reflexivity|now rewrite app_nil_r].
Qed.

Lemma after_load_none p fs ss pressed w :
  none p (form_events ss) ->
  none p intro_events ->
  none p footer_events ->
  p button_event = false ->
  p (Draw MainArea (Warning warning_text)) = false ->
  (forall m df, p (ModelPredict m df) = false) ->
  (forall s, p (Draw MainArea (Subheader s)) = false) ->
  (forall s, p (Draw MainArea (Success s)) = false) ->
  (forall s, p (Draw MainArea (Info s)) = false) ->
  (forall e, p (Draw MainArea (Error (error_message e))) = false) ->
  none p (after_load fs ss pressed w).
Proof.
  intros Hform Hintro Hfoot Hb Hw Hc Hh Hs Hi He. unfold after_load.
  destruct (returned (load_model fs MODEL_PATH w)) as [mdl|e];
    [|apply none_nil].
  cbn zeta. repeat apply none_app; auto.
  - now apply prediction_logic_none.
  - destruct (returned (prediction_logic _ _ _ _ _ _)); auto. apply none_nil.
Qed.

Ltac after_load_side :=
  apply after_load_none; first [reflexivity | intros; reflexivity].

Lemma loads_of_app tr1 tr2 :
  loads_of (tr1 ++ tr2) = (loads_of tr1 ++ loads_of tr2)%list.
Proof. apply omap_app. Qed.

Lemma calls_of_app tr1 tr2 :
  calls_of (tr1 ++ tr2) = (calls_of tr1 ++ calls_of tr2)%list.
Proof. apply omap_app. Qed.

Lemma sliders_of_app tr1 tr2 :
  sliders_of (tr1 ++ tr2) = (sliders_of tr1 ++ sliders_of tr2)%list.
Proof. apply omap_app. Qed.

Lemma after_load_reads_nothing fs ss pressed w :
  loads_of (after_load fs ss pressed w) = [].
Proof.
  apply none_omap with is_load; [now intros []|]. after_load_side.
Qed.

(** A render reads what its loader reads. *)
Lemma script_loads_of fs ss pressed w :
  loads_of (trace (script fs ss pressed w))
  = loads_of (trace (load_model fs MODEL_PATH w)).
Proof.
  rewrite script_trace_split.
  change (page_config_event :: ?x) with ([page_config_event] ++ x)%list.
  now rewrite !loads_of_app, after_load_reads_nothing, app_nil_r.
Qed.

(** X1. The page configuration is the first thing every render does,
    whether the render completes or not, and it is done once. *)
Theorem page_config_comes_first fs ss pressed w :
  reachable w ->
  exists rest,
    trace (script fs ss pressed w) = page_config_event :: rest
    /\ none is_page_config rest.
Proof.
  intros Hw. apply reachable_cache_ok in Hw.
  rewrite script_trace_split. eexists. split; [reflexivity|].
  apply none_app; [now apply load_model_none|after_load_side].
Qed.

(** X2. A render reads the disk only through the loader: nothing when the
    cache holds an entry for the model path, and otherwise one file, the
    one at the fixed model path. *)
Theorem render_reads_only_the_model_file fs ss pressed w :
  reachable w ->
  loads_of (trace (script fs ss pressed w))
  = match cache w !! MODEL_PATH with
    | Some _ => []
    | None => [MODEL_PATH]
    end.
Proof.
  intros Hw. apply reachable_cache_ok in Hw.
  now rewrite script_loads_of, load_model_reads.
Qed.

(** X3. Once the cache holds an entry for the model path, no later render
    of the process reads the disk or changes the process state, whatever
    the disk holds by then and whatever the user does. *)
Theorem cached_renders_are_stateless w entry steps :
  reachable w ->
  cache w !! MODEL_PATH = Some entry ->
  Forall (fun o => loads_of (trace o) = [] /\ final o = w) (renders steps w).
Proof.
  intros Hw Hc. induction steps as [|[[fs ss] pressed] rest IH].
  - constructor.
  - cbn [renders].
    assert (Hfin : final (script fs ss pressed w) = w).
    { rewrite script_world. destruct entry as [v drawn].
      now rewrite (load_model_hit _ _ _ _ _ Hc). }
    constructor.
    + split; [|exact Hfin].
      rewrite script_loads_of, load_model_reads
        by now apply reachable_cache_ok.
      now rewrite Hc.
    + now rewrite Hfin.
Qed.

Lemma load_model_calls_nothing fs path w :
  cache_ok w -> calls_of (trace (load_model fs path w)) = [].
Proof.
  intros Hok. apply none_omap with is_predict; [now intros []|].
  now apply load_model_none.
Qed.

(** The calls of [predict] a render makes. *)
Lemma script_calls_of fs ss pressed w :
  cache_ok w ->
  calls_of (trace (script fs ss pressed w))
  = match returned (load_model fs MODEL_PATH w), pressed with
    | Ok (Some m), true => [(oid m, inputs_of ss)]
    | _, _ => []
    end.
Proof.
  intros Hok. rewrite script_trace_split.
  change (page_config_event :: ?x) with ([page_config_event] ++ x)%list.
  rewrite !calls_of_app, load_model_calls_nothing by exact Hok.
  unfold after_load.
  destruct (returned (load_model fs MODEL_PATH w)) as [[m|]|e];
    [|reflexivity|reflexivity].
  cbn zeta. destruct pressed; [|reflexivity].
  rewrite prediction_logic_pressed. cbn zeta.
  destruct (predict_and_show_cases m (position AmineFlow_control ss)
              (position AirFlow_control ss) (position Iron_control ss)
              (final (load_model fs MODEL_PATH w)))
    as [(s & _ & ->)|[(v & e & _ & _ & ->)|[(e & _ & _ & ->)|(e & _ & _ & ->)]]];
    reflexivity.
Qed.

(** X4. A render calls [predict] at most once: exactly once, on the object
    the loader returned and with the frame of the current slider values,
    when the loader returned a model and the button was pressed; otherwise
    not at all. *)
Theorem predict_is_called_once_when_pressed fs ss pressed w :
  reachable w ->
  calls_of (trace (script fs ss pressed w))
  = match returned (load_model fs MODEL_PATH w), pressed with
    | Ok (Some m), true => [(oid m, inputs_of ss)]
    | _, _ => []
    end.
Proof. intros Hw. now apply script_calls_of, reachable_cache_ok. Qed.

(** X5. Once a model is in the cache, every prediction of the process is
    answered by that one object, in every later render, even when the file
    on the disk has been replaced or removed since. *)
Theorem every_prediction_uses_the_cached_object w m drawn steps :
  reachable w ->
  cache w !! MODEL_PATH = Some (Some m, drawn) ->
  Forall (fun o => Forall (fun call => fst call = oid m) (calls_of (trace o)))
         (renders steps w).
Proof.
  intros Hw Hc. induction steps as [|[[fs ss] pressed] rest IH].
  - constructor.
  - cbn [renders]. constructor.
    + rewrite script_calls_of by now apply reachable_cache_ok.
      rewrite (load_model_hit _ _ _ _ _ Hc). cbn [returned].
      destruct pressed; repeat constructor.
    + rewrite script_world, (load_model_hit _ _ _ _ _ Hc). exact IH.
Qed.

(** X6. An exception of [joblib.load] that is no [FileNotFoundError] ends
    the render right after the read: no slider, no title, no button, no
    warning and no footer are drawn, and nothing is cached. The next render
    reads the file again, and when the file can be read by then, loads the
    model and offers the button. *)
Theorem unhandled_load_error_aborts_and_retries fs ss pressed w e p :
  cache w !! MODEL_PATH = None ->
  fs MODEL_PATH = Raise e ->
  is_FileNotFoundError (exn_class_of e) = false ->
  let o := script fs ss pressed w in
  let o' := script (repaired p fs) ss pressed (final o) in
  trace o = [page_config_event; JoblibLoad MODEL_PATH]
  /\ returned o = Raise e
  /\ final o = w
  /\ loads_of (trace o') = [MODEL_PATH]
  /\ returned (load_model (repaired p fs) MODEL_PATH (final o))
     = Ok (Some (mkModel (next_oid w) p))
  /\ count is_button (trace o') = 1%nat.
Proof.
  intros Hc Hf He o o'.
  assert (Ho : o = mkOutcome w [page_config_event; JoblibLoad MODEL_PATH]
                     (Raise e)).
  { subst o. rewrite script_run. cbn zeta.
    now rewrite (load_model_propagates _ _ _ _ Hc Hf He). }
  assert (Hp : repaired p fs MODEL_PATH = Ok p) by reflexivity.
  subst o'. rewrite Ho. cbn [trace returned final].
  split; [reflexivity|]. split; [reflexivity|]. split; [reflexivity|].
  rewrite script_loads_of, script_trace_split. unfold after_load.
  rewrite (load_model_loads _ _ _ _ Hc Hp). cbn zeta. cbn [trace returned final].
  split; [reflexivity|]. split; [reflexivity|].
  change (page_config_event :: ?x) with ([page_config_event] ++ x)%list.
  rewrite !count_app.
  rewrite (none_count is_button (form_events ss)) by reflexivity.
  destruct pressed.
  - rewrite prediction_logic_pressed. cbn zeta. cbn [trace returned].
    rewrite (count_cons is_button button_event),
      (none_count is_button (trace (predict_and_show _ _ _ _ _)))
      by (apply predict_and_show_none; intros; reflexivity).
    destruct (returned (predict_and_show _ _ _ _ _)); reflexivity.
  - reflexivity.
Qed.

Lemma prediction_logic_button_or_warning mdl pressed a b c w :
  let tr := trace (prediction_logic mdl pressed a b c w) in
  count is_button tr = match mdl with Some _ => 1 | None => 0 end%nat
  /\ count is_warning tr = match mdl with Some _ => 0 | None => 1 end%nat.
Proof.
  destruct mdl as [m|]; [|now rewrite prediction_logic_no_model].
  destruct pressed; [|now rewrite prediction_logic_idle].
  rewrite prediction_logic_pressed. cbn zeta. cbn [trace].
  rewrite !count_cons.
  rewrite (none_count is_button), (none_count is_warning)
    by (apply predict_and_show_none; intros; reflexivity).
  split; reflexivity.
Qed.

(** X7. In every render whose loader returned, exactly one of the button
    and the warning is drawn, once: the button when a model was returned,
    the warning when [None] was. *)
Theorem button_or_warning_never_both fs ss pressed w mdl :
  reachable w ->
  returned (load_model fs MODEL_PATH w) = Ok mdl ->
  let o := script fs ss pressed w in
  count is_button (trace o) = match mdl with Some _ => 1 | None => 0 end%nat
  /\ count is_warning (trace o) = match mdl with Some _ => 0 | None => 1 end%nat.
Proof.
  intros Hw Hl o. apply reachable_cache_ok in Hw. subst o.
  rewrite script_trace_split. unfold after_load. rewrite Hl. cbn zeta.
  change (page_config_event :: ?x) with ([page_config_event] ++ x)%list.
  rewrite !count_app.
  rewrite (none_count is_button (trace (load_model _ _ _))),
    (none_count is_warning (trace (load_model _ _ _)))
    by now apply load_model_none.
  rewrite (none_count is_button (form_events ss)),
    (none_count is_warning (form_events ss)) by reflexivity.
  destruct (prediction_logic_button_or_warning mdl pressed
              (position AmineFlow_control ss) (position AirFlow_control ss)
              (position Iron_control ss) (final (load_model fs MODEL_PATH w)))
    as [Hb Hwarn].
  cbn zeta in Hb, Hwarn. rewrite Hb, Hwarn.
  destruct (returned (prediction_logic _ _ _ _ _ _)); destruct mdl;
    split; reflexivity.
Qed.


Lemma none_slider_no_sliders tr : none is_slider tr -> sliders_of tr = [].
Proof.
  apply none_omap. intros [c e| |] H; try reflexivity.
  destruct e; try discriminate H; destruct c; reflexivity.
Qed.

Lemma after_load_sliders fs ss pressed w mdl :
  returned (load_model fs MODEL_PATH w) = Ok mdl ->
  sliders_of (after_load fs ss pressed w)
  = [ (AmineFlow_slider, position AmineFlow_control ss);
      (AirFlow_slider, position AirFlow_control ss);
      (Iron_slider, position Iron_control ss) ].
Proof.
  intros Hl. unfold after_load. rewrite Hl. cbn zeta.
  rewrite !sliders_of_app.
  rewrite (none_slider_no_sliders (trace (prediction_logic _ _ _ _ _ _)))
    by (apply prediction_logic_none; intros; reflexivity).
  destruct (returned (prediction_logic _ _ _ _ _ _)); reflexivity.
Qed.

(** X9. What the user sees is what the model gets: in a pressed render
    with a loaded model, the three sliders are drawn once each, and the
    frame handed to [predict] holds exactly the positions they show. *)
Theorem shown_sliders_are_the_model_inputs fs ss w m :
  reachable w ->
  returned (load_model fs MODEL_PATH w) = Ok (Some m) ->
  let o := script fs ss true w in
  exists a b c,
    sliders_of (trace o)
    = [(AmineFlow_slider, a); (AirFlow_slider, b); (Iron_slider, c)]
    /\ frames_of (trace o) = [df_input a b c]
    /\ count is_slider (trace o) = 3%nat.
Proof.
  intros Hw Hl o.
  destruct (script_pressed_verdict fs ss w m Hw Hl) as [Hfr _].
  apply reachable_cache_ok in Hw.
  exists (position AmineFlow_control ss), (position AirFlow_control ss),
    (position Iron_control ss).
  split; [|split; [exact Hfr|]]; subst o; rewrite script_trace_split;
    change (page_config_event :: ?x) with ([page_config_event] ++ x)%list.
  - rewrite !sliders_of_app, (after_load_sliders _ _ _ _ _ Hl).
    rewrite (none_slider_no_sliders (trace (load_model _ _ _)))
      by now apply load_model_none.
    reflexivity.
  - rewrite !count_app.
    rewrite (none_count is_slider (trace (load_model _ _ _)))
      by now apply load_model_none.
    unfold after_load. rewrite Hl. cbn zeta. rewrite !count_app.
    rewrite (none_count is_slider (trace (prediction_logic _ _ _ _ _ _)))
      by (apply prediction_logic_none; intros; reflexivity).
    destruct (returned (prediction_logic _ _ _ _ _ _)); reflexivity.
Qed.

(** X10. A render that completes ends with the divider and the expander
    about the application, drawn once; a render ended by an exception draws
    neither. *)
Theorem footer_closes_completed_renders fs ss pressed w :
  reachable w ->
  let o := script fs ss pressed w in
  match returned o with
  | Ok _ =>
      exists before,
        trace o = (before ++ footer_events)%list /\ none is_footer before
  | Raise _ => none is_footer (trace o)
  end.
Proof.
  intros Hw o. apply reachable_cache_ok in Hw. subst o.
  rewrite script_run. cbn zeta.
  destruct (returned (load_model fs MODEL_PATH w)) as [mdl|e];
    cbn [returned trace].
  - assert (Hlogic : none is_footer
                       (trace (prediction_logic mdl pressed
                                 (position AmineFlow_control ss)
                                 (position AirFlow_control ss)
                                 (position Iron_control ss)
                                 (final (load_model fs MODEL_PATH w)))))
      by (apply prediction_logic_none; intros; reflexivity).
    destruct (returned (prediction_logic _ _ _ _ _ _)).
    + eexists (page_config_event :: trace (load_model fs MODEL_PATH w)
                 ++ form_events ss ++ intro_events ++ trace _).
      split.
      * cbn [app]. f_equal. now rewrite <- !app_assoc.
      * apply none_cons; [reflexivity|].
        repeat apply none_app; try reflexivity; [|exact Hlogic].
        now apply load_model_none.
    + apply none_cons; [reflexivity|].
      repeat apply none_app; try reflexivity; [|exact Hlogic].
      now apply load_model_none.
  - apply none_cons; [reflexivity|]. now apply load_model_none.
Qed.

Lemma load_model_keeps_other_paths fs p q w :
  p <> q ->
  cache (final (load_model fs q w)) !! p = cache w !! p.
Proof.
  intros Hpq.
  destruct (cache w !! q) as [[v drawn]|] eqn:Hc.
  { now rewrite (load_model_hit _ _ _ _ _ Hc). }
  destruct (fs q) as [pr|e] eqn:Hf.
  - rewrite (load_model_loads _ _ _ _ Hc Hf). cbn zeta. cbn [final cache].
    now rewrite lookup_insert_ne.
  - destruct (is_FileNotFoundError (exn_class_of e)) eqn:He.
    + rewrite (load_model_not_found _ _ _ _ Hc Hf He). cbn zeta.
      cbn [final cache]. now rewrite lookup_insert_ne.
    + now rewrite (load_model_propagates _ _ _ _ Hc Hf He).
Qed.

(** X11. The cache is keyed by the path: what the loader returned for one
    path stays cached while another path is loaded, and is returned again
    afterwards without a read. *)
Theorem other_paths_do_not_evict fs fs2 fs3 p1 p2 w v :
  reachable w ->
  p1 <> p2 ->
  returned (load_model fs p1 w) = Ok v ->
  let w1 := final (load_model fs p1 w) in
  let w2 := final (load_model fs2 p2 w1) in
  returned (load_model fs3 p1 w2) = Ok v
  /\ loads_of (trace (load_model fs3 p1 w2)) = [].
Proof.
  intros Hw Hne Hr w1 w2. apply reachable_cache_ok in Hw.
  destruct (load_model_stores _ _ _ _ Hw Hr) as [drawn Hc]. fold w1 in Hc.
  assert (Hc2 : cache w2 !! p1 = Some (v, drawn)).
  { subst w2. now rewrite load_model_keeps_other_paths. }
  assert (Hok2 : cache_ok w2).
  { subst w2 w1. now do 2 apply load_model_cache_ok. }
  split.
  - now rewrite (load_model_hit _ _ _ _ _ Hc2).
  - now rewrite load_model_reads, Hc2.
Qed.

Lemma frames_of_calls tr : frames_of tr = map snd (calls_of tr).
Proof.
  unfold frames_of, calls_of.
  induction tr as [|ev tr IH]; [reflexivity|].
  destruct ev; cbn; now rewrite ?IH.
Qed.

(** X12. The model is never handed a value outside the sliders' ranges:
    whatever positions the browser sent, every frame a render gives to
    [predict] holds an amine flow in [241, 740], an air flow in [175, 372]
    and an iron concentrate in [62, 69]; a position outside the range that
    the browser sent is replaced by the slider's declared value. *)
Theorem model_inputs_stay_in_range fs (ss : gmap string Z) pressed w :
  reachable w ->
  Forall (fun df => exists a b c,
            df = [ ("FlujoAmina", [PInt a]); ("FlujoAireColumna1", [PInt b]);
                   ("Hierro Concentrado", [PInt c]) ]
            /\ 241 <= a <= 740 /\ 175 <= b <= 372 /\ 62 <= c <= 69
            /\ (forall raw, ss !! "Flujo de Amina (kg/min)" = Some raw ->
                a = if ((241 <=? raw) && (raw <=? 740))%Z then raw else 300)
            /\ (forall raw, ss !! "Flujo de Aire Columna 1(kg/min)" = Some raw ->
                b = if ((175 <=? raw) && (raw <=? 372))%Z then raw else 180)
            /\ (forall raw, ss !! "Hierro Concentrado (%)" = Some raw ->
                c = if ((62 <=? raw) && (raw <=? 69))%Z then raw else 63))
         (frames_of (trace (script fs ss pressed w))).
Proof.
  intros Hw. apply reachable_cache_ok in Hw.
  rewrite frames_of_calls, script_calls_of by exact Hw.
  pose proof (session_always_ok ss) as Hok.
  destruct (returned (load_model fs MODEL_PATH w)) as [[m|]|e];
    try constructor.
  destruct pressed; constructor; [|constructor].
  exists (position AmineFlow_control ss), (position AirFlow_control ss),
    (position Iron_control ss).
  split; [reflexivity|].
  pose proof (Hok AmineFlow_control) as Ha.
  pose proof (Hok AirFlow_control) as Hb.
  pose proof (Hok Iron_control) as Hc.
  unfold in_range in Ha, Hb, Hc. cbn [spec_of min_value max_value
    AmineFlow_slider AirFlow_slider Iron_slider] in Ha, Hb, Hc.
  split; [exact Ha|]. split; [exact Hb|]. split; [exact Hc|].
  unfold position, current.
  cbn [spec_of label AmineFlow_slider AirFlow_slider Iron_slider].
  repeat split; intros raw ->; reflexivity.
Qed.

(* ===================================================================== *)
(** ** The further properties at concrete inputs *)
(* ===================================================================== *)

Lemma page_config_comes_first_witness :
  reachable fresh_world
  /\ exists rest,
       trace (script empty_disk ∅ false fresh_world)
       = page_config_event :: rest
       /\ none is_page_config rest.
Proof.
  split; [constructor|].
  exact (page_config_comes_first empty_disk ∅ false fresh_world
           reachable_fresh).
Defined.

Lemma render_reads_only_the_model_file_witness :
  reachable fresh_world
  /\ loads_of (trace (script (disk_with stub_predictor) ∅ true fresh_world))
     = [MODEL_PATH].
Proof.
  split; [constructor|].
  exact (render_reads_only_the_model_file (disk_with stub_predictor) ∅ true
           fresh_world reachable_fresh).
Defined.

Lemma cached_renders_are_stateless_witness :
  let w := final (script (disk_with stub_predictor) ∅ false fresh_world) in
  let steps := [(empty_disk, ∅, true); (locked_disk, session_at 400 200 65, true)] in
  reachable w
  /\ cache w !! MODEL_PATH = Some (Some (mkModel 0 stub_predictor), [])
  /\ Forall (fun o => loads_of (trace o) = [] /\ final o = w) (renders steps w).
Proof.
  cbn zeta.
  assert (Hw : reachable
                 (final (script (disk_with stub_predictor) ∅ false fresh_world)))
    by (constructor; constructor).
  split; [exact Hw|]. split; [reflexivity|].
  exact (cached_renders_are_stateless _ _
           [(empty_disk, ∅, true); (locked_disk, session_at 400 200 65, true)]
           Hw eq_refl).
Defined.

Lemma predict_is_called_once_when_pressed_witness :
  reachable fresh_world
  /\ calls_of (trace (script (disk_with stub_predictor) ∅ true fresh_world))
     = [(0%nat, df_input 300 180 63)].
Proof.
  split; [constructor|].
  exact (predict_is_called_once_when_pressed (disk_with stub_predictor) ∅ true
           fresh_world reachable_fresh).
Defined.

Lemma every_prediction_uses_the_cached_object_witness :
  let w := final (script (disk_with stub_predictor) ∅ false fresh_world) in
  let steps := [(disk_with empty_predictor, ∅, true); (empty_disk, ∅, true)] in
  reachable w
  /\ cache w !! MODEL_PATH = Some (Some (mkModel 0 stub_predictor), [])
  /\ Forall (fun o => Forall (fun call => fst call = 0%nat)
                        (calls_of (trace o)))
            (renders steps w).
Proof.
  cbn zeta.
  assert (Hw : reachable
                 (final (script (disk_with stub_predictor) ∅ false fresh_world)))
    by (constructor; constructor).
  split; [exact Hw|]. split; [reflexivity|].
  exact (every_prediction_uses_the_cached_object _
           (mkModel 0 stub_predictor) []
           [(disk_with empty_predictor, ∅, true); (empty_disk, ∅, true)]
           Hw eq_refl).
Defined.

Lemma unhandled_load_error_aborts_and_retries_witness :
  let e := mkExn PermissionError
             "[Errno 13] Permission denied: 'modeloproyecto.joblib'" in
  let o := script locked_disk ∅ true fresh_world in
  let o' := script (repaired stub_predictor locked_disk) ∅ true (final o) in
  cache fresh_world !! MODEL_PATH = None
  /\ locked_disk MODEL_PATH = Raise e
  /\ is_FileNotFoundError (exn_class_of e) = false
  /\ trace o = [page_config_event; JoblibLoad MODEL_PATH]
  /\ returned o = Raise e
  /\ final o = fresh_world
  /\ loads_of (trace o') = [MODEL_PATH]
  /\ returned (load_model (repaired stub_predictor locked_disk) MODEL_PATH
                 (final o))
     = Ok (Some (mkModel 0 stub_predictor))
  /\ count is_button (trace o') = 1%nat.
Proof.
  cbn zeta. split; [reflexivity|]. split; [reflexivity|].
  split; [reflexivity|].
  exact (unhandled_load_error_aborts_and_retries locked_disk ∅ true
           fresh_world
           (mkExn PermissionError
              "[Errno 13] Permission denied: 'modeloproyecto.joblib'")
           stub_predictor eq_refl eq_refl eq_refl).
Defined.

Lemma button_or_warning_never_both_witness :
  let o := script empty_disk ∅ true fresh_world in
  reachable fresh_world
  /\ returned (load_model empty_disk MODEL_PATH fresh_world) = Ok None
  /\ count is_button (trace o) = 0%nat
  /\ count is_warning (trace o) = 1%nat.
Proof.
  cbn zeta. split; [constructor|]. split; [reflexivity|].
  exact (button_or_warning_never_both empty_disk ∅ true fresh_world None
           reachable_fresh eq_refl).
Defined.


Lemma shown_sliders_are_the_model_inputs_witness :
  let fs := disk_with stub_predictor in
  let o := script fs (session_at 400 200 65) true fresh_world in
  reachable fresh_world
  /\ returned (load_model fs MODEL_PATH fresh_world)
     = Ok (Some (mkModel 0 stub_predictor))
  /\ exists a b c,
       sliders_of (trace o)
       = [(AmineFlow_slider, a); (AirFlow_slider, b); (Iron_slider, c)]
       /\ frames_of (trace o) = [df_input a b c]
       /\ count is_slider (trace o) = 3%nat.
Proof.
  cbn zeta. split; [constructor|]. split; [reflexivity|].
  exact (shown_sliders_are_the_model_inputs (disk_with stub_predictor)
           (session_at 400 200 65) fresh_world (mkModel 0 stub_predictor)
           reachable_fresh eq_refl).
Defined.

Lemma footer_closes_completed_renders_witness :
  let o := script (disk_with stub_predictor) ∅ true fresh_world in
  reachable fresh_world
  /\ returned o = Ok tt
  /\ exists before,
       trace o = (before ++ footer_events)%list /\ none is_footer before.
Proof.
  cbn zeta. split; [constructor|].
  assert (Hr : returned (script (disk_with stub_predictor) ∅ true fresh_world)
               = Ok tt) by (vm_compute; reflexivity).
  split; [exact Hr|].
  pose proof (footer_closes_completed_renders (disk_with stub_predictor) ∅
                true fresh_world reachable_fresh) as H.
  cbv zeta in H. rewrite Hr in H. exact H.
Defined.

Lemma other_paths_do_not_evict_witness :
  let fs := disk_with stub_predictor in
  let w1 := final (load_model fs MODEL_PATH fresh_world) in
  let w2 := final (load_model empty_disk "otro.joblib" w1) in
  reachable fresh_world
  /\ MODEL_PATH <> "otro.joblib"
  /\ returned (load_model fs MODEL_PATH fresh_world)
     = Ok (Some (mkModel 0 stub_predictor))
  /\ returned (load_model empty_disk MODEL_PATH w2)
     = Ok (Some (mkModel 0 stub_predictor))
  /\ loads_of (trace (load_model empty_disk MODEL_PATH w2)) = [].
Proof.
  cbn zeta.
  assert (Hne : MODEL_PATH <> "otro.joblib") by discriminate.
  split; [constructor|]. split; [exact Hne|]. split; [reflexivity|].
  exact (other_paths_do_not_evict (disk_with stub_predictor) empty_disk
           empty_disk MODEL_PATH "otro.joblib" fresh_world
           (Some (mkModel 0 stub_predictor)) reachable_fresh Hne eq_refl).
Defined.

Lemma model_inputs_stay_in_range_witness :
  let evs := [Move AmineFlow_control 9999; Move Iron_control (-5); Press] in
  let o := script (disk_with stub_predictor) (play evs) true fresh_world in
  reachable fresh_world
  /\ frames_of (trace o) = [df_input 300 180 63]
  /\ Forall (fun df => exists a b c,
               df = [ ("FlujoAmina", [PInt a]); ("FlujoAireColumna1", [PInt b]);
                      ("Hierro Concentrado", [PInt c]) ]
               /\ 241 <= a <= 740 /\ 175 <= b <= 372 /\ 62 <= c <= 69
               /\ (forall raw,
                      play evs !! "Flujo de Amina (kg/min)" = Some raw ->
                      a = if ((241 <=? raw) && (raw <=? 740))%Z
                          then raw else 300)
               /\ (forall raw,
                      play evs !! "Flujo de Aire Columna 1(kg/min)" = Some raw ->
                      b = if ((175 <=? raw) && (raw <=? 372))%Z
                          then raw else 180)
               /\ (forall raw,
                      play evs !! "Hierro Concentrado (%)" = Some raw ->
                      c = if ((62 <=? raw) && (raw <=? 69))%Z
                          then raw else 63))
            (frames_of (trace o)).
Proof.
  cbn zeta. split; [constructor|]. split; [vm_compute; reflexivity|].
  exact (model_inputs_stay_in_range (disk_with stub_predictor)
           (play [Move AmineFlow_control 9999; Move Iron_control (-5); Press])
           true fresh_world reachable_fresh).
Defined.
